(** * mcp-to-ts: the runtime schema-validation adapter of [src/index.ts]

    A shallow embedding of the adapter that turns an MCP toolset into
    validated callables ([createMcpToolFunctions]) and into a metadata
    listing ([listMcpToolsFromToolSet]).

    - JavaScript values are a small tree type, [JsValue].
    - Thrown errors / rejected promises are the [Throw] case of [Outcome].
    - The module-level [schemaValidatorCache] (a [WeakMap] keyed by the
      identity of the schema handle) is a [gmap] from schema identities to
      compiled validators, threaded through the code in the [World].
    - The two collaborators that are not part of the package, [asSchema] of
      the [ai] package and [ajv.compile], are parameters of the development,
      and so is the identity of objects, which tree values do not have.
    - [async]/[await] is sequential here: every [await] is a monadic bind. *)

From Stdlib Require Import Ascii String ZArith List Lia.
From stdpp Require Import gmap strings list fin_maps pretty.

Open Scope string_scope.
Open Scope list_scope.

(* ===================================================================== *)
(** ** JavaScript values *)
(* ===================================================================== *)

(** Runtime values as far as the adapter inspects them.  Numbers are the
    integers (the adapter never computes with them); a function is opaque
    apart from being callable. *)
#[warnings="-register-all"] Inductive JsValue : Type :=
| VUndefined
| VNull
| VBool (b : bool)
| VNumber (n : Z)
| VString (s : string)
| VFunction (tag : nat)
| VArray (elems : list JsValue)
| VObject (props : list (string * JsValue)).

(** The [typeof] operator. *)
Definition typeof (v : JsValue) : string :=
  match v with
  | VUndefined => "undefined"
  | VNull => "object"
  | VBool _ => "boolean"
  | VNumber _ => "number"
  | VString _ => "string"
  | VFunction _ => "function"
  | VArray _ => "object"
  | VObject _ => "object"
  end.

(** Lookup in the property list of an object (first binding wins). *)
Fixpoint assoc {A : Type} (key : string) (l : list (string * A)) : option A :=
  match l with
  | [] => None
  | (k, x) :: rest => if String.eqb k key then Some x else assoc key rest
  end.

(** The array index a property key denotes, if it is the canonical decimal
    spelling of an index below [len]. *)
Definition array_index (key : string) (len : nat) : option nat :=
  find (fun i => String.eqb (pretty i) key) (seq 0 len).

(** [key in value] for an object or array.  Members inherited from
    [Object.prototype] and [Array.prototype] are not modelled. *)
Definition js_in (key : string) (v : JsValue) : bool :=
  match v with
  | VObject props => bool_decide (is_Some (assoc key props))
  | VArray elems =>
      String.eqb key "length"
      || bool_decide (is_Some (array_index key (length elems)))
  | _ => false
  end.

(** [Reflect.get(value, key)] for an object or array. *)
Definition Reflect_get (v : JsValue) (key : string) : JsValue :=
  match v with
  | VObject props => default VUndefined (assoc key props)
  | VArray elems =>
      if String.eqb key "length" then VNumber (Z.of_nat (length elems))
      else match array_index key (length elems) with
           | Some i => nth i elems VUndefined
           | None => VUndefined
           end
  | _ => VUndefined
  end.

(* ===================================================================== *)
(** ** Errors and outcomes *)
(* ===================================================================== *)

(** What the adapter throws.  [Error m] is [new Error(m)];
    [TypeValidationError v c] is [new TypeValidationError({ value: v,
    cause: c })] of the [ai] package. *)
Inductive JsError : Type :=
| Error (message : string)
| TypeValidationError (value : JsValue) (cause : JsError).

Definition isTypeValidationError (e : JsError) : bool :=
  match e with
  | TypeValidationError _ _ => true
  | Error _ => false
  end.

Definition error_value (e : JsError) : option JsValue :=
  match e with
  | TypeValidationError v _ => Some v
  | Error _ => None
  end.

Definition error_cause (e : JsError) : option JsError :=
  match e with
  | TypeValidationError _ c => Some c
  | Error _ => None
  end.

(** Two values have the same content: the same primitive, the same
    function, or arrays and objects with the same members in the same
    order. *)
Fixpoint sameContent (a b : JsValue) {struct a} : bool :=
  match a, b with
  | VUndefined, VUndefined => true
  | VNull, VNull => true
  | VBool x, VBool y => Bool.eqb x y
  | VNumber x, VNumber y => Z.eqb x y
  | VString x, VString y => String.eqb x y
  | VFunction x, VFunction y => Nat.eqb x y
  | VArray xs, VArray ys =>
      (fix all (xs ys : list JsValue) {struct xs} : bool :=
         match xs, ys with
         | [], [] => true
         | x :: xs', y :: ys' => sameContent x y && all xs' ys'
         | _, _ => false
         end) xs ys
  | VObject ps, VObject qs =>
      (fix all (ps qs : list (string * JsValue)) {struct ps} : bool :=
         match ps, qs with
         | [], [] => true
         | (k, x) :: ps', (l, y) :: qs' =>
             String.eqb k l && sameContent x y && all ps' qs'
         | _, _ => false
         end) ps qs
  | _, _ => false
  end.

(** A call either returns (a resolved promise) or throws (a rejected one). *)
Inductive Outcome (A : Type) : Type :=
| Ok (a : A)
| Throw (e : JsError).
Arguments Ok {A} a.
Arguments Throw {A} e.

Definition bindO {A B : Type} (m : Outcome A) (k : A -> Outcome B) : Outcome B :=
  match m with
  | Ok a => k a
  | Throw e => Throw e
  end.

(* ===================================================================== *)
(** ** Schema shape detection *)
(* ===================================================================== *)

Definition isFlexibleSchema (value : JsValue) : bool :=
  if String.eqb (typeof value) "function" then true
  else if negb (String.eqb (typeof value) "object")
          || match value with VNull => true | _ => false end
  then false
  else if js_in "~standard" value then true
  else js_in "jsonSchema" value && js_in "validate" value.

Definition ensureFlexibleSchema (value : JsValue) : Outcome JsValue :=
  if isFlexibleSchema value then Ok value
  else Throw (Error "Tool input schema is not a supported schema.").

(* ===================================================================== *)
(** ** Formatting the violations of the compiled validator *)
(* ===================================================================== *)

Definition readOptionalString (value : JsValue) (key : string) : option string :=
  if negb (String.eqb (typeof value) "object")
     || match value with VNull => true | _ => false end
  then None
  else match Reflect_get value key with
       | VString propertyValue => Some propertyValue
       | _ => None
       end.

(** A string is truthy when it is not empty. *)
Definition nonempty (s : string) : bool :=
  match s with
  | EmptyString => false
  | String _ _ => true
  end.

(** The callback of [errors.map] in [formatAjvErrors]. *)
Definition formatAjvError (index : nat) (error : JsValue) : string :=
  let message := readOptionalString error "message" in
  let instancePath :=
    match readOptionalString error "instancePath" with
    | Some p => Some p
    | None => readOptionalString error "dataPath"
    end in
  let label :=
    match instancePath with
    | Some p => if nonempty p then p else "error " +:+ pretty (index + 1)%nat
    | None => "error " +:+ pretty (index + 1)%nat
    end in
  match message with
  | Some m => if nonempty m then label +:+ ": " +:+ m
              else label +:+ ": invalid input"
  | None => label +:+ ": invalid input"
  end.

Definition formatAjvErrors (errors : JsValue) : string :=
  match errors with
  | VArray ((_ :: _) as l) => String.concat "; " (imap formatAjvError l)
  | _ => "Input did not match the expected schema."
  end.

(* ===================================================================== *)
(** ** Schemas, validators, tools *)
(* ===================================================================== *)

(** [ValidationResult<INPUT>]. *)
Inductive ValidationResult : Type :=
| Success (value : JsValue)
| Failure (error : JsError).

(** A schema handle ([Schema<unknown>] of the [ai] package).  [schema_id]
    stands for the identity of the object, the key of the [WeakMap];
    [jsonSchema] may be computed lazily and so may throw; [validate] is
    optional. *)
Record Schema : Type := mkSchema {
  schema_id : nat;
  jsonSchema : Outcome JsValue;
  validate : option (JsValue -> Outcome ValidationResult)
}.

(** One run of a compiled validator: what the call returns and what it
    leaves in its [errors] property. *)
Record AjvRun : Type := mkAjvRun {
  ajv_result : JsValue;
  ajv_errors : JsValue
}.

Definition AjvValidator : Type := JsValue -> AjvRun.

Record ToolExecutionOptions : Type := mkOptions {
  toolCallId : string;
  messages : list JsValue
}.

Definition ExecuteFunction : Type :=
  JsValue -> ToolExecutionOptions -> Outcome JsValue.

Record McpToolDefinition : Type := mkTool {
  description : option string;
  title : option string;
  inputSchema : JsValue;
  execute : option ExecuteFunction
}.

(** A toolset in key enumeration order; [None] is a falsy entry. *)
Definition McpToolSet : Type := list (string * option McpToolDefinition).

Definition Object_keys (toolset : McpToolSet) : list string := map fst toolset.

Record McpToolInfo : Type := mkInfo {
  name : string;
  info_description : option string;
  info_title : option string;
  info_inputSchema : JsValue
}.

(** What comes from outside the package: [asSchema] of [ai], the
    [compile] method of the module-level [ajv] instance, and which
    occurrences of objects are one and the same object.  [asSchema] is
    taken as a function of the value: that is how it treats a schema
    object, which it hands back or wraps the same way every time; a
    callable (lazy) schema is called anew on every resolution and may give
    a fresh handle each time, which a function of the value cannot show.
    The values of this development are trees without identity, so whether
    two arrays or objects of the same content are the same object is not
    theirs to tell: [sameObject] tells it. *)
Class Libraries : Type := {
  asSchema : JsValue -> Outcome Schema;
  ajv_compile : JsValue -> Outcome AjvValidator;
  sameObject : JsValue -> JsValue -> bool
}.

(** Strict equality [a === b]: by value on primitives, by tag on
    functions, and for arrays and objects the same content and the same
    object. *)
Definition strictEquals `{Libraries} (a b : JsValue) : bool :=
  sameContent a b
  && match a with
     | VArray _ => sameObject a b
     | VObject _ => sameObject a b
     | _ => true
     end.

(** [TypeValidationError.wrap({ value, cause })] of the [ai] package: a
    cause that is already a typed validation error for the same value is
    handed back as it is; any other cause is wrapped, with the value, into
    a new typed validation error. *)
Definition TypeValidationError_wrap `{Libraries} (value : JsValue)
    (cause : JsError) : JsError :=
  match cause with
  | TypeValidationError carried _ =>
      if strictEquals carried value then cause
      else TypeValidationError value cause
  | Error _ => TypeValidationError value cause
  end.

(* ===================================================================== *)
(** ** The world: validator cache and observation logs *)
(* ===================================================================== *)

(** One call of a tool's [execute] function. *)
Record ExecuteCall : Type := mkCall {
  call_tool : string;
  call_input : JsValue;
  call_options : ToolExecutionOptions
}.

(** [schemaValidatorCache] is the module-level [WeakMap]; [compileLog]
    lists the schema identities for which [ajv.compile] was invoked and
    [executeLog] the calls made to [execute] functions, oldest first. *)
Record World : Type := mkWorld {
  schemaValidatorCache : gmap nat AjvValidator;
  compileLog : list nat;
  executeLog : list ExecuteCall
}.

Definition M (A : Type) : Type := World -> Outcome A * World.

Definition ret {A : Type} (a : A) : M A := fun w => (Ok a, w).

Definition throw {A : Type} (e : JsError) : M A := fun w => (Throw e, w).

Definition liftO {A : Type} (o : Outcome A) : M A := fun w => (o, w).

Definition bindM {A B : Type} (m : M A) (k : A -> M B) : M B :=
  fun w =>
    match m w with
    | (Ok a, w') => k a w'
    | (Throw e, w') => (Throw e, w')
    end.

Notation "'do' x <- m ;; k" := (bindM m (fun x => k))
  (at level 10, x name, m at level 99, k at level 200).

Definition cache_get (schema : Schema) : M (option AjvValidator) :=
  fun w => (Ok (schemaValidatorCache w !! schema_id schema), w).

Definition cache_set (schema : Schema) (validator : AjvValidator) : M unit :=
  fun w =>
    (Ok tt,
     mkWorld (<[schema_id schema := validator]> (schemaValidatorCache w))
             (compileLog w) (executeLog w)).

(** [ajv.compile(jsonSchema)], with the invocation noted in the log. *)
Definition compile `{Libraries} (schema : Schema) (json : JsValue)
  : M AjvValidator :=
  fun w =>
    (ajv_compile json,
     mkWorld (schemaValidatorCache w)
             (compileLog w ++ [schema_id schema]) (executeLog w)).

(** [tool.execute(input, options)], with the call noted in the log. *)
Definition invoke (toolName : string) (exec : ExecuteFunction)
    (input : JsValue) (options : ToolExecutionOptions) : M JsValue :=
  fun w =>
    (exec input options,
     mkWorld (schemaValidatorCache w) (compileLog w)
             (executeLog w ++ [mkCall toolName input options])).

(* ===================================================================== *)
(** ** Validator materialization *)
(* ===================================================================== *)

Definition getAjvValidator `{Libraries} (schema : Schema) : M AjvValidator :=
  do cached <- cache_get schema ;;
  match cached with
  | Some validator => ret validator
  | None =>
      do json <- liftO (jsonSchema schema) ;;
      do validator <- compile schema json ;;
      do _ <- cache_set schema validator ;;
      ret validator
  end.

(** [getAjvValidator] up to its [await]: the cache lookup and, on a miss,
    the reading of the JSON representation. *)
Definition getAjvValidator_beforeAwait (schema : Schema)
  : M (AjvValidator + JsValue) :=
  do cached <- cache_get schema ;;
  match cached with
  | Some validator => ret (inl validator)
  | None => do json <- liftO (jsonSchema schema) ;; ret (inr json)
  end.

(** [getAjvValidator] from its [await] on: compilation and the store into
    the cache.  Another build may run between the two halves. *)
Definition getAjvValidator_afterAwait `{Libraries} (schema : Schema)
    (json : JsValue) : M AjvValidator :=
  do validator <- compile schema json ;;
  do _ <- cache_set schema validator ;;
  ret validator.

Definition ensureSyncValidation (validator : AjvValidator) (value : JsValue)
  : Outcome bool :=
  match ajv_result (validator value) with
  | VBool result => Ok result
  | _ => Throw (Error "Async JSON schema validation is not supported.")
  end.

(** The [validate] closure that [buildValidatedSchema] attaches. *)
Definition compiledValidate (validator : AjvValidator) (value : JsValue)
  : Outcome ValidationResult :=
  bindO (ensureSyncValidation validator value) (fun ok =>
    if ok then Ok (Success value)
    else Ok (Failure (Error (formatAjvErrors (ajv_errors (validator value)))))).

(** The copy [{ ...resolved, validate }] is a new object; it is written
    here with the identity of the resolved handle, which nothing reads:
    the copy is never a key of the cache. *)
Definition buildValidatedSchema `{Libraries} (schema : JsValue) : M Schema :=
  do resolved <- liftO (asSchema schema) ;;
  match validate resolved with
  | Some _ => ret resolved
  | None =>
      do validator <- getAjvValidator resolved ;;
      ret (mkSchema (schema_id resolved) (jsonSchema resolved)
                    (Some (compiledValidate validator)))
  end.

Definition validateInput `{Libraries} (value : JsValue) (schema : Schema)
  : Outcome JsValue :=
  match validate schema with
  | None => Throw (Error "Input schema does not provide validation.")
  | Some validate_fn =>
      bindO (validate_fn value) (fun result =>
        match result with
        | Success validated => Ok validated
        | Failure cause => Throw (TypeValidationError_wrap value cause)
        end)
  end.

(* ===================================================================== *)
(** ** Tool wrappers *)
(* ===================================================================== *)

Definition createExecutionOptions (toolName : string) : ToolExecutionOptions :=
  mkOptions ("mcp:" +:+ toolName) [].

Definition dquote : string := String "034"%char EmptyString.

Definition missingExecuteMessage (toolName : string) : string :=
  "MCP tool " +:+ dquote +:+ toolName +:+ dquote
  +:+ " does not have an execute function.".

Definition McpToolFunction : Type := JsValue -> M JsValue.

(** The function that [createToolWrapper] returns. *)
Definition toolWrapper `{Libraries} (toolName : string)
    (tool : McpToolDefinition) (schema : Schema) : McpToolFunction :=
  fun args =>
    do validated <- liftO (validateInput args schema) ;;
    match execute tool with
    | None => throw (Error (missingExecuteMessage toolName))
    | Some exec => invoke toolName exec validated (createExecutionOptions toolName)
    end.

Definition createToolWrapper `{Libraries} (toolName : string)
    (tool : McpToolDefinition) : M McpToolFunction :=
  do flexible <- liftO (ensureFlexibleSchema (inputSchema tool)) ;;
  do schema <- buildValidatedSchema flexible ;;
  ret (toolWrapper toolName tool schema).

(** The [for] loop of [createMcpToolFunctions] over the remaining keys.
    The assignment [toolFunctions[toolName] = wrapper] is an insertion
    into the mapping; the one key for which an assignment on a plain
    object is no insertion, ["__proto__"], is not told apart here. *)
Fixpoint createMcpToolFunctions_loop `{Libraries} (toolset : McpToolSet)
    (keys : list string) (toolFunctions : gmap string McpToolFunction)
  : M (gmap string McpToolFunction) :=
  match keys with
  | [] => ret toolFunctions
  | toolName :: rest =>
      match assoc toolName toolset with
      | Some (Some tool) =>
          do wrapper <- createToolWrapper toolName tool ;;
          createMcpToolFunctions_loop toolset rest
            (<[toolName := wrapper]> toolFunctions)
      | _ => createMcpToolFunctions_loop toolset rest toolFunctions
      end
  end.

Definition createMcpToolFunctions `{Libraries} (toolset : McpToolSet)
  : M (gmap string McpToolFunction) :=
  createMcpToolFunctions_loop toolset (Object_keys toolset) ∅.

(** The body of the listing loop for one defined entry. *)
Definition toolInfo `{Libraries} (toolName : string) (tool : McpToolDefinition)
  : Outcome McpToolInfo :=
  bindO (ensureFlexibleSchema (inputSchema tool)) (fun flexible =>
  bindO (asSchema flexible) (fun schema =>
  bindO (jsonSchema schema) (fun json =>
  Ok (mkInfo toolName (description tool) (title tool) json)))).

Fixpoint listMcpToolsFromToolSet_loop `{Libraries} (toolset : McpToolSet)
    (keys : list string) (tools : list McpToolInfo) : Outcome (list McpToolInfo) :=
  match keys with
  | [] => Ok tools
  | toolName :: rest =>
      match assoc toolName toolset with
      | Some (Some tool) =>
          bindO (toolInfo toolName tool) (fun info =>
            listMcpToolsFromToolSet_loop toolset rest (tools ++ [info]))
      | _ => listMcpToolsFromToolSet_loop toolset rest tools
      end
  end.

Definition listMcpToolsFromToolSet `{Libraries} (toolset : McpToolSet)
  : Outcome (list McpToolInfo) :=
  listMcpToolsFromToolSet_loop toolset (Object_keys toolset) [].

(* ===================================================================== *)
(** ** Error messages *)
(* ===================================================================== *)

Definition backslash : string := String "092"%char EmptyString.

Definition hex_digit (n : nat) : string :=
  String (nth n (list_ascii_of_string "0123456789abcdef") "0"%char) EmptyString.

(** How [JSON.stringify] writes one character of a string. *)
Definition json_escape (c : ascii) : string :=
  let code := nat_of_ascii c in
  if Nat.eqb code 34 then backslash +:+ dquote
  else if Nat.eqb code 92 then backslash +:+ backslash
  else if Nat.eqb code 8 then backslash +:+ "b"
  else if Nat.eqb code 9 then backslash +:+ "t"
  else if Nat.eqb code 10 then backslash +:+ "n"
  else if Nat.eqb code 12 then backslash +:+ "f"
  else if Nat.eqb code 13 then backslash +:+ "r"
  else if Nat.ltb code 32
  then backslash +:+ "u00" +:+ hex_digit (code / 16) +:+ hex_digit (code mod 16)
  else String c EmptyString.

Fixpoint json_escape_all (s : string) : string :=
  match s with
  | EmptyString => EmptyString
  | String c rest => json_escape c +:+ json_escape_all rest
  end.

Definition json_quote (s : string) : string :=
  dquote +:+ json_escape_all s +:+ dquote.

(** [JSON.stringify(value)]; [None] is the [undefined] it gives for
    [undefined] and for functions.  Numbers are printed as integers in
    decimal, which is what JavaScript prints below 10^21. *)
Fixpoint JSON_stringify (v : JsValue) : option string :=
  match v with
  | VUndefined => None
  | VFunction _ => None
  | VNull => Some "null"
  | VBool b => Some (if b then "true" else "false")
  | VNumber n => Some (pretty n)
  | VString s => Some (json_quote s)
  | VArray elems =>
      Some ("[" +:+ String.concat ","
              (map (fun e => default "null" (JSON_stringify e)) elems) +:+ "]")
  | VObject props =>
      Some ("{" +:+ String.concat ","
              ((fix members (ps : list (string * JsValue)) : list string :=
                  match ps with
                  | [] => []
                  | (k, x) :: rest =>
                      match JSON_stringify x with
                      | Some text => (json_quote k +:+ ":" +:+ text) :: members rest
                      | None => members rest
                      end
                  end) props) +:+ "}")
  end.

Definition newline : string := String "010"%char EmptyString.

(** The [message] of an error.  The typed error's message is the one the
    [ai] package composes from the value and the cause. *)
Fixpoint error_message (e : JsError) : string :=
  match e with
  | Error message => message
  | TypeValidationError value cause =>
      "Type validation failed: Value: "
      +:+ default "undefined" (JSON_stringify value) +:+ "." +:+ newline
      +:+ "Error message: " +:+ error_message cause
  end.

(** [haystack.includes(needle)]. *)
Fixpoint includes (needle haystack : string) : bool :=
  if String.prefix needle haystack then true
  else match haystack with
       | EmptyString => false
       | String _ rest => includes needle rest
       end.

(* ===================================================================== *)
(** ** Specification-side vocabulary *)
(* ===================================================================== *)

(** The three accepted shapes of an input-schema value, in the words of the
    specification. *)
Definition callable (v : JsValue) : Prop := exists tag, v = VFunction tag.

Definition nonNullObject (v : JsValue) : Prop :=
  (exists props, v = VObject props) \/ (exists elems, v = VArray elems).

Definition hasProperty (key : string) (v : JsValue) : Prop := js_in key v = true.

Definition supportedShape (v : JsValue) : Prop :=
  callable v
  \/ (nonNullObject v /\ hasProperty "~standard" v)
  \/ (nonNullObject v /\ hasProperty "jsonSchema" v /\ hasProperty "validate" v).

(** A structural violation as the compiled validator reports it. *)
Record Violation : Type := mkViolation {
  instancePath : string;
  keyword : string;
  violation_message : string
}.

(** An error object of the compiled validator reports the violation [v]:
    it is an object whose [instancePath] and [message] properties are the
    strings of [v], whatever other properties ([keyword], [schemaPath],
    [params], ...) it carries. *)
Definition reports (error : JsValue) (v : Violation) : Prop :=
  exists props,
    error = VObject props
    /\ assoc "instancePath" props = Some (VString (instancePath v))
    /\ assoc "message" props = Some (VString (violation_message v)).

(** Location of the violation at position [index]: its instance path, or a
    positional label when the path is empty. *)
Definition violationLocation (index : nat) (v : Violation) : string :=
  match instancePath v with
  | EmptyString => "error " +:+ pretty (S index)
  | path => path
  end.

Definition violationText (index : nat) (v : Violation) : string :=
  violationLocation index v +:+ ": " +:+ violation_message v.

(** The defined entries of a toolset, in enumeration order. *)
Fixpoint definedEntries (toolset : McpToolSet)
  : list (string * McpToolDefinition) :=
  match toolset with
  | [] => []
  | (key, Some tool) :: rest => (key, tool) :: definedEntries rest
  | (_, None) :: rest => definedEntries rest
  end.

(** The toolset without its falsy entries. *)
Definition withoutFalsy (toolset : McpToolSet) : McpToolSet :=
  map (fun entry => (fst entry, Some (snd entry))) (definedEntries toolset).

(** A listing record carries the key, description and title of its entry. *)
Definition describes (entry : string * McpToolDefinition) (info : McpToolInfo)
  : Prop :=
  name info = fst entry
  /\ info_description info = description (snd entry)
  /\ info_title info = title (snd entry).

(** The cache and the compile log agree on a schema identity from [w] to
    [w']: the cached validator is still there and the compiler was not
    invoked for that identity in between. *)
Definition keepsCached (id : nat) (validator : AjvValidator) (w w' : World)
  : Prop :=
  schemaValidatorCache w' !! id = Some validator
  /\ count_occ Nat.eq_dec (compileLog w') id
     = count_occ Nat.eq_dec (compileLog w) id.

(** A tool's schema can be listed: its shape is supported and its JSON
    representation resolves. *)
Definition resolvable `{Libraries} (tool : McpToolDefinition) : Prop :=
  supportedShape (inputSchema tool)
  /\ exists schema json,
       asSchema (inputSchema tool) = Ok schema /\ jsonSchema schema = Ok json.

(** [schema] is the validated schema of [tool] in world [w]: the resolved
    handle itself when that validates on its own, and otherwise the handle
    with the validation closure over the validator cached for its
    identity. *)
Definition builtFor `{Libraries} (tool : McpToolDefinition) (schema : Schema)
    (w : World) : Prop :=
  exists resolved,
    asSchema (inputSchema tool) = Ok resolved
    /\ ((exists validate_fn, validate resolved = Some validate_fn)
         /\ schema = resolved
        \/ validate resolved = None
           /\ exists validator,
                schemaValidatorCache w !! schema_id resolved = Some validator
                /\ schema = mkSchema (schema_id resolved) (jsonSchema resolved)
                             (Some (compiledValidate validator))).

(** Every wrapper in [fs] belongs to a defined entry of the toolset and
    closes over that entry's validated schema. *)
Definition wrappersBuilt `{Libraries} (toolset : McpToolSet)
    (fs : gmap string McpToolFunction) (w : World) : Prop :=
  forall key wrapper,
    fs !! key = Some wrapper ->
    exists tool schema,
      assoc key toolset = Some (Some tool)
      /\ builtFor tool schema w
      /\ wrapper = toolWrapper key tool schema.

(** The worlds reachable by building toolsets and calling wrappers. *)
Inductive evolves `{Libraries} : World -> World -> Prop :=
| evolves_refl (w : World) : evolves w w
| evolves_build (w w1 w2 : World) (toolset : McpToolSet)
    (r : Outcome (gmap string McpToolFunction)) :
    evolves w w1 -> createMcpToolFunctions toolset w1 = (r, w2) -> evolves w w2
| evolves_call (w w1 w2 : World) (toolName : string) (tool : McpToolDefinition)
    (schema : Schema) (args : JsValue) (r : Outcome JsValue) :
    evolves w w1 -> toolWrapper toolName tool schema args w1 = (r, w2) ->
    evolves w w2.

(* ===================================================================== *)
(** ** Entry points over an MCP client *)
(* ===================================================================== *)

(** The MCP client of [@ai-sdk/mcp]: connecting with a configuration and
    enumerating the tools of the connection.  Either step may reject. *)
Class McpClientLibrary : Type := {
  MCPClient : Type;
  createMCPClient : JsValue -> Outcome MCPClient;
  client_tools : MCPClient -> Outcome McpToolSet
}.

Definition getMcpToolsAsFunctions `{Libraries} `{McpClientLibrary}
    (config : JsValue) : M (gmap string McpToolFunction) :=
  do client <- liftO (createMCPClient config) ;;
  do toolset <- liftO (client_tools client) ;;
  createMcpToolFunctions toolset.

Definition listMcpTools `{Libraries} `{McpClientLibrary} (config : JsValue)
  : Outcome (list McpToolInfo) :=
  bindO (createMCPClient config) (fun client =>
  bindO (client_tools client) (fun toolset =>
  listMcpToolsFromToolSet toolset)).

(** What one step of construction may do to the compiler log and the
    cache: nothing, or one invocation for an identity that was not cached,
    which either raised or left its validator cached. *)
Definition compilesAtMostOnce {A : Type} (w : World) (r : Outcome A) (w' : World)
  : Prop :=
  (compileLog w' = compileLog w
   /\ schemaValidatorCache w' = schemaValidatorCache w)
  \/ exists id,
       schemaValidatorCache w !! id = None
       /\ compileLog w' = compileLog w ++ [id]
       /\ ((exists e, r = Throw e)
           \/ exists validator,
                schemaValidatorCache w'
                = <[id := validator]> (schemaValidatorCache w)).

(** The record a listing makes of a defined entry: key, description and
    title of the entry, and the JSON representation of its resolved
    schema. *)
Definition listedAs `{Libraries} (entry : string * McpToolDefinition)
    (info : McpToolInfo) : Prop :=
  supportedShape (inputSchema (snd entry))
  /\ exists schema,
       asSchema (inputSchema (snd entry)) = Ok schema
       /\ jsonSchema schema = Ok (info_inputSchema info)
       /\ info = mkInfo (fst entry) (description (snd entry))
                   (title (snd entry)) (info_inputSchema info).

(* ===================================================================== *)
(** ** Concrete collaborators and toolsets (after [test/mcp-to-ts.test.ts]) *)
(* ===================================================================== *)

Module Fixture.

(** A built-in validator that accepts strings only. *)
Definition stringOnly (value : JsValue) : Outcome ValidationResult :=
  match value with
  | VString _ => Ok (Success value)
  | _ => Ok (Failure (Error "Expected string"))
  end.

(** A built-in validator that accepts strings only and reports its
    failure as a typed validation error for the value. *)
Definition typedFailure (value : JsValue) : Outcome ValidationResult :=
  match value with
  | VString _ => Ok (Success value)
  | _ => Ok (Failure (TypeValidationError value (Error "Expected string")))
  end.

(** A stand-in for [asSchema]: a handle object carries its identity in a
    numeric [handle] property, its JSON representation in [jsonSchema],
    and a built-in validator when its [validate] property is a function. *)
Definition asSchema (v : JsValue) : Outcome Schema :=
  match Reflect_get v "handle" with
  | VNumber n =>
      Ok (mkSchema (Z.to_nat n) (Ok (Reflect_get v "jsonSchema"))
            (match Reflect_get v "validate" with
             | VFunction _ => Some stringOnly
             | _ => None
             end))
  | _ => Throw (Error "not a schema handle")
  end.

Definition hasType (t : string) (v : JsValue) : bool :=
  match v with
  | VObject _ => String.eqb t "object"
  | VArray _ => String.eqb t "array"
  | VString _ => String.eqb t "string"
  | VNumber _ => String.eqb t "number"
  | VBool _ => String.eqb t "boolean"
  | VNull => String.eqb t "null"
  | _ => false
  end.

Definition violation (path message : string) : JsValue :=
  VObject [("instancePath", VString path); ("message", VString message)].

(** Violations of the [type] keywords of the declared properties. *)
Fixpoint propertyViolations (properties : list (string * JsValue))
    (value : JsValue) : list JsValue :=
  match properties with
  | [] => []
  | (key, sub) :: rest =>
      match Reflect_get sub "type", js_in key value with
      | VString t, true =>
          if hasType t (Reflect_get value key) then propertyViolations rest value
          else violation ("/" +:+ key) ("must be " +:+ t)
               :: propertyViolations rest value
      | _, _ => propertyViolations rest value
      end
  end.

(** A validator for the [type] and [properties] keywords, reporting all
    violations. *)
Definition validator (json : JsValue) : AjvValidator :=
  fun value =>
    let top :=
      match Reflect_get json "type" with
      | VString t => if hasType t value then []
                     else [violation EmptyString ("must be " +:+ t)]
      | _ => []
      end in
    let inner :=
      match Reflect_get json "properties", value with
      | VObject properties, VObject _ => propertyViolations properties value
      | _, _ => []
      end in
    match (top ++ inner)%list with
    | [] => mkAjvRun (VBool true) VNull
    | errors => mkAjvRun (VBool false) (VArray errors)
    end.

(** A stand-in for [ajv.compile]: it refuses a schema whose [type] is not
    a string, and compiles an [$async] schema to a validator that returns
    a promise. *)
Definition ajv_compile (json : JsValue) : Outcome AjvValidator :=
  match Reflect_get json "$async", Reflect_get json "type" with
  | VBool true, _ =>
      Ok (fun _ => mkAjvRun (VObject [("then", VFunction 0)]) VNull)
  | _, VString _ => Ok (validator json)
  | _, _ => Throw (Error "schema is invalid: data/type must be string")
  end.

(** Objects of the same content are taken to be the same object. *)
Definition libraries : Libraries :=
  Build_Libraries asSchema ajv_compile (fun _ _ => true).

(** [jsonSchema({...})]: a handle without built-in validation. *)
Definition handle (id : Z) (json : JsValue) : JsValue :=
  VObject [("handle", VNumber id); ("jsonSchema", json);
           ("validate", VUndefined)].

Definition greetJson : JsValue :=
  VObject [("type", VString "object");
           ("properties", VObject [("name", VObject [("type", VString "string")])]);
           ("required", VArray [VString "name"]);
           ("additionalProperties", VBool false)].

Definition greetExecute : ExecuteFunction :=
  fun input _ =>
    match Reflect_get input "name" with
    | VString who => Ok (VString ("hello " +:+ who))
    | _ => Throw (Error "Missing name")
    end.

Definition greet : McpToolDefinition :=
  mkTool (Some "Greets a name") None (handle 1 greetJson) (Some greetExecute).

Definition noopJson : JsValue :=
  VObject [("type", VString "object"); ("properties", VObject []);
           ("additionalProperties", VBool false)].

Definition noop : McpToolDefinition :=
  mkTool (Some "Noop") None (handle 2 noopJson) None.

Definition calc : McpToolDefinition :=
  mkTool (Some "Adds values") (Some "Calculator")
    (handle 3 (VObject [("type", VString "object");
                        ("properties",
                         VObject [("value", VObject [("type", VString "number")])]);
                        ("required", VArray [VString "value"])]))
    (Some (fun _ _ => Ok (VObject [("ok", VBool true)]))).

(** A tool whose input schema is a bare number. *)
Definition unsupported : McpToolDefinition :=
  mkTool None None (VNumber 42) None.

(** A tool whose JSON Schema the compiler refuses. *)
Definition uncompilable : McpToolDefinition :=
  mkTool None None (handle 7 (VObject [("type", VNumber 5)])) None.

Definition emptyWorld : World := mkWorld ∅ [] [].

(** The resolved handle of the greeting schema. *)
Definition greetSchema : Schema := mkSchema 1 (Ok greetJson) None.

(** The world after the greeting schema was compiled. *)
Definition warmWorld : World :=
  mkWorld (<[1%nat := validator greetJson]> ∅) [1%nat] [].

(** A handle that validates on its own. *)
Definition stringHandle : JsValue :=
  VObject [("handle", VNumber 4);
           ("jsonSchema", VObject [("type", VString "string")]);
           ("validate", VFunction 0)].

Definition greetToolset : McpToolSet := [("greet", Some greet)].

(** The wrapper built for [greet], and the mapping that holds it. *)
Definition greetWrapper : McpToolFunction :=
  @toolWrapper libraries "greet" greet
    (mkSchema 1 (Ok greetJson) (Some (compiledValidate (validator greetJson)))).

Definition greetFunctions : gmap string McpToolFunction :=
  <["greet" := greetWrapper]> ∅.

Definition noopToolset : McpToolSet := [("noop", Some noop)].

Definition noopWrapper : McpToolFunction :=
  @toolWrapper libraries "noop" noop
    (mkSchema 2 (Ok noopJson) (Some (compiledValidate (validator noopJson)))).

Definition noopFunctions : gmap string McpToolFunction :=
  <["noop" := noopWrapper]> ∅.

Definition noopWorld : World :=
  mkWorld (<[2%nat := validator noopJson]> ∅) [2%nat] [].

Definition bob : JsValue := VObject [("name", VString "bob")].

Definition notAName : JsValue := VObject [("name", VNumber 123)].

End Fixture.

(** A client for one server: any configuration with a string [url]
    connects, and the connection offers the greeting tool, an entry that
    is not there any more, and the calculator. *)
Module ClientFixture.

Definition connect (config : JsValue) : Outcome unit :=
  match Reflect_get config "url" with
  | VString _ => Ok tt
  | _ => Throw (Error "Invalid MCP client configuration")
  end.

Definition serverTools : McpToolSet :=
  [("greet", Some Fixture.greet); ("gone", None); ("calc", Some Fixture.calc)].

Definition client : McpClientLibrary :=
  Build_McpClientLibrary unit connect (fun _ => Ok serverTools).

Definition config : JsValue :=
  VObject [("url", VString "https://your-server.com/mcp")].

Definition badConfig : JsValue := VObject [].

End ClientFixture.

(* ===================================================================== *)
(** ** Schema resolution *)
(* ===================================================================== *)

Lemma isFlexibleSchema_supportedShape (value : JsValue) :
  isFlexibleSchema value = true <-> supportedShape value.
Proof.
  unfold supportedShape, callable, nonNullObject, hasProperty.
  destruct value; unfold isFlexibleSchema; cbn [typeof]; simpl String.eqb; simpl negb;
    simpl orb; cbv iota;
    try (split; [discriminate | intros [[? ?] | [[[[? ?] | [? ?]] ?] | [[[? ?] | [? ?]] ?]]];
                   discriminate]).
  - split; [intros _; left; eauto | reflexivity].
  - destruct (js_in "~standard" (VArray elems)) eqn:Hstd.
    + split; [intros _; right; left; split; eauto | reflexivity].
    + rewrite andb_true_iff. split.
      * intros [Hj Hv]. right; right. split; eauto.
      * intros [[? ?] | [[_ Habs] | [_ Hboth]]]; [discriminate | congruence | exact Hboth].
  - destruct (js_in "~standard" (VObject props)) eqn:Hstd.
    + split; [intros _; right; left; split; eauto | reflexivity].
    + rewrite andb_true_iff. split.
      * intros [Hj Hv]. right; right. split; eauto.
      * intros [[? ?] | [[_ Habs] | [_ Hboth]]]; [discriminate | congruence | exact Hboth].
Qed.

Lemma ensureFlexibleSchema_supported (value : JsValue) :
  supportedShape value -> ensureFlexibleSchema value = Ok value.
Proof.
  intros Hs. apply isFlexibleSchema_supportedShape in Hs.
  unfold ensureFlexibleSchema. rewrite Hs. reflexivity.
Qed.

Lemma ensureFlexibleSchema_unsupported (value : JsValue) :
  ~ supportedShape value ->
  ensureFlexibleSchema value
  = Throw (Error "Tool input schema is not a supported schema.").
Proof.
  intros Hnot. unfold ensureFlexibleSchema.
  destruct (isFlexibleSchema value) eqn:Hshape; [| reflexivity].
  exfalso. apply Hnot. by apply isFlexibleSchema_supportedShape.
Qed.

(** C6. Schema resolution accepts exactly the three shapes (a callable
    value, a non-null object with a ["~standard"] property, a non-null
    object with both a ["jsonSchema"] and a ["validate"] property): on
    such a value it hands back the very value it was given, and on every
    value of any other shape it raises the unsupported-schema error. *)
Theorem ensureFlexibleSchema_three_shapes (value : JsValue) :
  (supportedShape value /\ ensureFlexibleSchema value = Ok value)
  \/ (~ supportedShape value
      /\ ensureFlexibleSchema value
         = Throw (Error "Tool input schema is not a supported schema.")).
Proof.
  destruct (isFlexibleSchema value) eqn:Hshape.
  - left. apply isFlexibleSchema_supportedShape in Hshape.
    split; [exact Hshape | by apply ensureFlexibleSchema_supported].
  - right.
    assert (Hnot : ~ supportedShape value).
    { intros Hs. apply isFlexibleSchema_supportedShape in Hs. congruence. }
    split; [exact Hnot | by apply ensureFlexibleSchema_unsupported].
Qed.

Example bare_number_is_rejected :
  ensureFlexibleSchema (VNumber 42)
  = Throw (Error "Tool input schema is not a supported schema.").
Proof. reflexivity. Qed.

Example plain_json_schema_is_rejected :
  ensureFlexibleSchema (VObject [("type", VString "object")])
  = Throw (Error "Tool input schema is not a supported schema.").
Proof. reflexivity. Qed.

Example handle_is_accepted :
  ensureFlexibleSchema (Fixture.handle 1 Fixture.greetJson)
  = Ok (Fixture.handle 1 Fixture.greetJson).
Proof. reflexivity. Qed.

Example standard_schema_is_accepted :
  ensureFlexibleSchema (VObject [("~standard", VObject [("version", VNumber 1)])])
  = Ok (VObject [("~standard", VObject [("version", VNumber 1)])]).
Proof. reflexivity. Qed.

(* ===================================================================== *)
(** ** Compiled validation *)
(* ===================================================================== *)

Lemma typeof_boolean (v : JsValue) :
  typeof v = "boolean" <-> exists b, v = VBool b.
Proof.
  split.
  - destruct v; simpl; try discriminate. eauto.
  - intros [b ->]. reflexivity.
Qed.

(** C8. When the compiled validator returns a non-boolean, validation
    raises the asynchronous-validation error; when it returns a boolean no
    such error is raised and the boolean decides between success (with the
    value) and failure (with the formatted violations). *)
Theorem compiledValidate_sync_only (validator : AjvValidator) (value : JsValue) :
  (typeof (ajv_result (validator value)) <> "boolean"
   /\ ensureSyncValidation validator value
      = Throw (Error "Async JSON schema validation is not supported.")
   /\ compiledValidate validator value
      = Throw (Error "Async JSON schema validation is not supported."))
  \/ (ajv_result (validator value) = VBool true
      /\ ensureSyncValidation validator value = Ok true
      /\ compiledValidate validator value = Ok (Success value))
  \/ (ajv_result (validator value) = VBool false
      /\ ensureSyncValidation validator value = Ok false
      /\ compiledValidate validator value
         = Ok (Failure (Error (formatAjvErrors (ajv_errors (validator value)))))).
Proof.
  unfold compiledValidate, ensureSyncValidation.
  destruct (ajv_result (validator value)) as [| |[|]| | | | |] eqn:Hres; simpl;
    try (left; split; [discriminate | split; reflexivity]).
  - right; left. repeat split.
  - right; right. repeat split.
Qed.

Lemma readOptionalString_props (props : list (string * JsValue)) (key : string) :
  readOptionalString (VObject props) key
  = match assoc key props with
    | Some (VString text) => Some text
    | _ => None
    end.
Proof.
  unfold readOptionalString. cbn.
  destruct (assoc key props) as [[]|]; reflexivity.
Qed.

Lemma formatAjvError_reports (index : nat) (error : JsValue) (v : Violation) :
  reports error v ->
  violation_message v <> EmptyString ->
  formatAjvError index error = violationText index v.
Proof.
  intros [props [-> [Hpath Hmsg]]] Hne.
  unfold formatAjvError, violationText, violationLocation.
  rewrite !readOptionalString_props, Hpath, Hmsg, Nat.add_1_r.
  destruct (violation_message v) as [| c msg]; [congruence |].
  destruct (instancePath v); reflexivity.
Qed.

Lemma imap_formatAjvError_reports (errors : list JsValue)
    (violations : list Violation) :
  Forall2 reports errors violations ->
  Forall (fun v => violation_message v <> EmptyString) violations ->
  forall k,
    imap (fun i => formatAjvError (k + i)) errors
    = imap (fun i => violationText (k + i)) violations.
Proof.
  induction 1 as [| error v errors violations Hrep _ IH]; intros Hall k;
    [reflexivity |].
  inversion Hall as [| ? ? Hv Hrest]; subst. simpl. f_equal.
  - by apply formatAjvError_reports.
  - rewrite (imap_ext _ (fun i => formatAjvError (S k + i)) errors)
      by (intros i x _; simpl; f_equal; lia).
    rewrite (imap_ext (_ ∘ S) (fun i => violationText (S k + i)) violations)
      by (intros i x _; simpl; f_equal; lia).
    by apply IH.
Qed.

(** C9. For a non-empty list of violations left by the compiled validator
    (error objects with their [instancePath] and [message], and whatever
    else they carry), the failure result has as its message the
    per-violation texts in order, each being the violation's location (its
    instance path, or ["error <position>"] when the path is empty), [": "]
    and its message, joined by ["; "]. *)
Theorem compiledValidate_failure_message (validator : AjvValidator)
    (value : JsValue) (errors : list JsValue) (violations : list Violation) :
  violations <> [] ->
  Forall (fun v => violation_message v <> EmptyString) violations ->
  Forall2 reports errors violations ->
  validator value = mkAjvRun (VBool false) (VArray errors) ->
  formatAjvErrors (VArray errors)
  = String.concat "; " (imap violationText violations)
  /\ compiledValidate validator value
     = Ok (Failure (Error (String.concat "; " (imap violationText violations)))).
Proof.
  intros Hne Hall Hrep Hrun.
  assert (Hfmt : formatAjvErrors (VArray errors)
                 = String.concat "; " (imap violationText violations)).
  { pose proof (imap_formatAjvError_reports _ _ Hrep Hall 0) as Himap.
    simpl in Himap.
    destruct Hrep as [| error v errors violations Hr Hrest]; [congruence |].
    unfold formatAjvErrors.
    change (imap formatAjvError (error :: errors))
      with (imap (fun i => formatAjvError i) (error :: errors)).
    rewrite Himap. reflexivity. }
  split; [exact Hfmt |].
  unfold compiledValidate, ensureSyncValidation. rewrite Hrun.
  cbn [ajv_result ajv_errors bindO]. rewrite Hfmt. reflexivity.
Qed.

(** Two error objects as the compiled validator writes them, and the run
    of the validator of the greeting schema on an argument with a
    non-string name. *)
Lemma compiledValidate_failure_message_witness :
  compiledValidate
    (fun _ => mkAjvRun (VBool false)
                (VArray
                   [VObject [("instancePath", VString "/name");
                             ("schemaPath", VString "#/properties/name/type");
                             ("keyword", VString "type");
                             ("params", VObject [("type", VString "string")]);
                             ("message", VString "must be string")];
                    VObject [("instancePath", VString EmptyString);
                             ("schemaPath", VString "#/required");
                             ("keyword", VString "required");
                             ("params",
                              VObject [("missingProperty", VString "age")]);
                             ("message",
                              VString "must have required property 'age'")]]))
    (VNumber 1)
  = Ok (Failure (Error
          "/name: must be string; error 2: must have required property 'age'"))
  /\ compiledValidate (Fixture.validator Fixture.greetJson) Fixture.notAName
     = Ok (Failure (Error "/name: must be string")).
Proof.
  split.
  - refine (proj2 (compiledValidate_failure_message _ (VNumber 1) _
                     [mkViolation "/name" "type" "must be string";
                      mkViolation EmptyString "required"
                        "must have required property 'age'"]
                     _ _ _ eq_refl)).
    + discriminate.
    + repeat constructor; discriminate.
    + constructor; [| constructor; [| constructor]];
        eexists; (split; [reflexivity | split; reflexivity]).
  - refine (proj2 (compiledValidate_failure_message
                     (Fixture.validator Fixture.greetJson) Fixture.notAName
                     [Fixture.violation "/name" "must be string"]
                     [mkViolation "/name" "type" "must be string"]
                     _ _ _ eq_refl)).
    + discriminate.
    + repeat constructor; discriminate.
    + constructor; [| constructor].
      eexists; (split; [reflexivity | split; reflexivity]).
Defined.

(* ===================================================================== *)
(** ** Input validation *)
(* ===================================================================== *)

Section InputValidation.
Context `{Libraries}.

Lemma TypeValidationError_wrap_typed (value : JsValue) (cause : JsError) :
  isTypeValidationError (TypeValidationError_wrap value cause) = true.
Proof.
  destruct cause as [message | carried inner]; simpl; [reflexivity |].
  destruct (strictEquals carried value); reflexivity.
Qed.

(** C5 (as amended). When the schema's validate operation reports
    failure, [validateInput] raises a typed validation error that carries
    the rejected value: the reported failure itself when that is already a
    typed validation error for the same value, and otherwise a new typed
    error that wraps the value and the reported failure as its cause.
    When validation succeeds, [validateInput] returns the validated
    value. *)
Theorem validateInput_typed_error (value : JsValue) (schema : Schema)
    (validate_fn : JsValue -> Outcome ValidationResult) :
  validate schema = Some validate_fn ->
  (forall cause, validate_fn value = Ok (Failure cause) ->
     exists e, validateInput value schema = Throw e
               /\ isTypeValidationError e = true
               /\ (error_value e = Some value
                   \/ exists carried, error_value e = Some carried
                                      /\ strictEquals carried value = true)
               /\ ((forall carried inner,
                       cause = TypeValidationError carried inner ->
                       strictEquals carried value = false) ->
                   e = TypeValidationError value cause
                   /\ error_cause e = Some cause)
               /\ (forall carried inner,
                      cause = TypeValidationError carried inner ->
                      strictEquals carried value = true ->
                      e = cause))
  /\ (forall validated, validate_fn value = Ok (Success validated) ->
        validateInput value schema = Ok validated).
Proof.
  intros Hv. unfold validateInput. rewrite Hv. split.
  - intros cause Hfail. rewrite Hfail. simpl.
    exists (TypeValidationError_wrap value cause).
    split; [reflexivity |]. split; [apply TypeValidationError_wrap_typed |].
    destruct cause as [message | carried inner]; simpl.
    + split; [left; reflexivity |]. split; [intros _; split; reflexivity |].
      intros carried inner Heq. discriminate.
    + destruct (strictEquals carried value) eqn:Hsame; simpl.
      * split; [right; eauto |]. split.
        -- intros Hdiff. specialize (Hdiff carried inner eq_refl). congruence.
        -- intros carried' inner' Heq _. reflexivity.
      * split; [left; reflexivity |]. split; [intros _; split; reflexivity |].
        intros carried' inner' Heq Hsame'. injection Heq as <- <-. congruence.
  - intros validated Hok. rewrite Hok. reflexivity.
Qed.

End InputValidation.

Lemma validateInput_typed_error_witness :
  @validateInput Fixture.libraries (VNumber 5) (mkSchema 0 (Ok VNull) (Some Fixture.stringOnly))
  = Throw (TypeValidationError (VNumber 5) (Error "Expected string"))
  /\ @validateInput Fixture.libraries (VString "a") (mkSchema 0 (Ok VNull) (Some Fixture.stringOnly))
     = Ok (VString "a").
Proof.
  split.
  - destruct (proj1 (@validateInput_typed_error Fixture.libraries (VNumber 5)
                       (mkSchema 0 (Ok VNull) (Some Fixture.stringOnly))
                       Fixture.stringOnly eq_refl)
                    (Error "Expected string") eq_refl)
      as [e [Hthrow [_ [_ [Hwraps _]]]]].
    rewrite Hthrow.
    destruct Hwraps as [He _]; [intros carried inner Heq; discriminate |].
    rewrite He. reflexivity.
  - exact (proj2 (@validateInput_typed_error Fixture.libraries (VString "a")
                    (mkSchema 0 (Ok VNull) (Some Fixture.stringOnly))
                    Fixture.stringOnly eq_refl)
                 (VString "a") eq_refl).
Defined.

(** C5 (as stated) fails when the validate operation reports a failure
    that is already a typed validation error for the value, as the
    validators of standard schemas do: the error raised is that failure
    itself, so what it has as its cause is not the reported failure. *)
Lemma validateInput_rethrows_typed_failure_counterexample :
  Fixture.typedFailure (VNumber 5)
  = Ok (Failure (TypeValidationError (VNumber 5) (Error "Expected string")))
  /\ @validateInput Fixture.libraries (VNumber 5) (mkSchema 0 (Ok VNull) (Some Fixture.typedFailure))
     = Throw (TypeValidationError (VNumber 5) (Error "Expected string"))
  /\ error_cause (TypeValidationError (VNumber 5) (Error "Expected string"))
     <> Some (TypeValidationError (VNumber 5) (Error "Expected string")).
Proof.
  split; [reflexivity |]. split; [reflexivity |]. discriminate.
Qed.

(* ===================================================================== *)
(** ** The validator cache *)
(* ===================================================================== *)

Section Cache.
Context `{Libraries}.

Lemma getAjvValidator_hit (schema : Schema) (w : World) (validator : AjvValidator) :
  schemaValidatorCache w !! schema_id schema = Some validator ->
  getAjvValidator schema w = (Ok validator, w).
Proof.
  intros Hhit. unfold getAjvValidator, bindM, cache_get. rewrite Hhit. reflexivity.
Qed.

Lemma getAjvValidator_miss (schema : Schema) (w : World) (json : JsValue) :
  schemaValidatorCache w !! schema_id schema = None ->
  jsonSchema schema = Ok json ->
  getAjvValidator schema w
  = match ajv_compile json with
    | Ok validator =>
        (Ok validator,
         mkWorld (<[schema_id schema := validator]> (schemaValidatorCache w))
                 (compileLog w ++ [schema_id schema]) (executeLog w))
    | Throw e =>
        (Throw e,
         mkWorld (schemaValidatorCache w)
                 (compileLog w ++ [schema_id schema]) (executeLog w))
    end.
Proof.
  intros Hmiss Hjson.
  unfold getAjvValidator, bindM, cache_get, liftO, compile, cache_set, ret.
  rewrite Hmiss, Hjson. simpl. destruct (ajv_compile json); reflexivity.
Qed.

Lemma keepsCached_refl (id : nat) (validator : AjvValidator) (w : World) :
  schemaValidatorCache w !! id = Some validator -> keepsCached id validator w w.
Proof. intros Hc. split; [exact Hc | reflexivity]. Qed.

Lemma keepsCached_trans (id : nat) (validator : AjvValidator) (w w1 w2 : World) :
  keepsCached id validator w w1 -> keepsCached id validator w1 w2 ->
  keepsCached id validator w w2.
Proof. intros [_ Hn1] [Hc2 Hn2]. split; [exact Hc2 | congruence]. Qed.

Lemma count_occ_snoc_ne (l : list nat) (x y : nat) :
  x <> y -> count_occ Nat.eq_dec (l ++ [x]) y = count_occ Nat.eq_dec l y.
Proof.
  intros Hne. rewrite count_occ_app. simpl.
  destruct (Nat.eq_dec x y); [contradiction | lia].
Qed.

Lemma getAjvValidator_keeps (id : nat) (validator : AjvValidator)
    (schema : Schema) (w w' : World) (r : Outcome AjvValidator) :
  schemaValidatorCache w !! id = Some validator ->
  getAjvValidator schema w = (r, w') ->
  keepsCached id validator w w'.
Proof.
  intros Hc Hrun.
  destruct (schemaValidatorCache w !! schema_id schema) as [cached |] eqn:Hlook.
  - rewrite (getAjvValidator_hit _ _ _ Hlook) in Hrun.
    injection Hrun as _ <-. by apply keepsCached_refl.
  - assert (Hne : schema_id schema <> id)
      by (intros Heq; rewrite Heq in Hlook; congruence).
    destruct (jsonSchema schema) as [json | e] eqn:Hjson.
    + rewrite (getAjvValidator_miss _ _ _ Hlook Hjson) in Hrun.
      destruct (ajv_compile json); injection Hrun as _ <-; split; simpl;
        try (by rewrite lookup_insert_ne); try exact Hc;
        by apply count_occ_snoc_ne.
    + unfold getAjvValidator, bindM, cache_get, liftO in Hrun.
      rewrite Hlook, Hjson in Hrun. injection Hrun as _ <-.
      by apply keepsCached_refl.
Qed.

(** What a successful materialization leaves in the cache. *)
Lemma getAjvValidator_cached (schema : Schema) (w w' : World)
    (validator : AjvValidator) :
  getAjvValidator schema w = (Ok validator, w') ->
  schemaValidatorCache w' !! schema_id schema = Some validator.
Proof.
  intros Hrun.
  destruct (schemaValidatorCache w !! schema_id schema) as [cached |] eqn:Hlook.
  - rewrite (getAjvValidator_hit _ _ _ Hlook) in Hrun.
    injection Hrun as <- <-. exact Hlook.
  - destruct (jsonSchema schema) as [json | e] eqn:Hjson.
    + rewrite (getAjvValidator_miss _ _ _ Hlook Hjson) in Hrun.
      destruct (ajv_compile json); [| discriminate].
      injection Hrun as <- <-. simpl. apply lookup_insert_eq.
    + unfold getAjvValidator, bindM, cache_get, liftO in Hrun.
      rewrite Hlook, Hjson in Hrun. discriminate.
Qed.

Lemma buildValidatedSchema_keeps (id : nat) (validator : AjvValidator)
    (value : JsValue) (w w' : World) (r : Outcome Schema) :
  schemaValidatorCache w !! id = Some validator ->
  buildValidatedSchema value w = (r, w') ->
  keepsCached id validator w w'.
Proof.
  intros Hc Hrun. unfold buildValidatedSchema, bindM, liftO in Hrun.
  destruct (asSchema value) as [resolved | e].
  - destruct (validate resolved).
    + injection Hrun as _ <-. by apply keepsCached_refl.
    + destruct (getAjvValidator resolved w) as [[v | e] w1] eqn:Hget;
        injection Hrun as _ <-; eapply getAjvValidator_keeps; eauto.
  - injection Hrun as _ <-. by apply keepsCached_refl.
Qed.

Lemma createToolWrapper_keeps (id : nat) (validator : AjvValidator)
    (toolName : string) (tool : McpToolDefinition) (w w' : World)
    (r : Outcome McpToolFunction) :
  schemaValidatorCache w !! id = Some validator ->
  createToolWrapper toolName tool w = (r, w') ->
  keepsCached id validator w w'.
Proof.
  intros Hc Hrun. unfold createToolWrapper, bindM, liftO in Hrun.
  destruct (ensureFlexibleSchema (inputSchema tool)) as [flexible | e].
  - destruct (buildValidatedSchema flexible w) as [[schema | e] w1] eqn:Hbuild;
      injection Hrun as _ <-; eapply buildValidatedSchema_keeps; eauto.
  - injection Hrun as _ <-. by apply keepsCached_refl.
Qed.

Lemma createMcpToolFunctions_loop_keeps (id : nat) (validator : AjvValidator)
    (toolset : McpToolSet) (keys : list string) :
  forall (acc : gmap string McpToolFunction) (w w' : World)
         (r : Outcome (gmap string McpToolFunction)),
    schemaValidatorCache w !! id = Some validator ->
    createMcpToolFunctions_loop toolset keys acc w = (r, w') ->
    keepsCached id validator w w'.
Proof.
  induction keys as [| key rest IH]; intros acc w w' r Hc Hrun; simpl in Hrun.
  - injection Hrun as _ <-. by apply keepsCached_refl.
  - destruct (assoc key toolset) as [[tool |] |]; try (eapply IH; eauto; fail).
    unfold bindM in Hrun.
    destruct (createToolWrapper key tool w) as [[wrapper | e] w1] eqn:Hwrap.
    + pose proof (createToolWrapper_keeps _ _ _ _ _ _ _ Hc Hwrap) as Hk1.
      eapply keepsCached_trans; [exact Hk1 |].
      eapply IH; [exact (proj1 Hk1) | exact Hrun].
    + injection Hrun as _ <-. eapply createToolWrapper_keeps; eauto.
Qed.

(** A call of a wrapper touches neither the cache nor the compiler. *)
Lemma toolWrapper_keeps (id : nat) (validator : AjvValidator)
    (toolName : string) (tool : McpToolDefinition) (schema : Schema)
    (args : JsValue) (w w' : World) (r : Outcome JsValue) :
  schemaValidatorCache w !! id = Some validator ->
  toolWrapper toolName tool schema args w = (r, w') ->
  keepsCached id validator w w'.
Proof.
  intros Hc Hrun. unfold toolWrapper, bindM, liftO, throw, invoke in Hrun.
  destruct (validateInput args schema) as [validated | e].
  - destruct (execute tool); injection Hrun as _ <-; split; simpl; done.
  - injection Hrun as _ <-. by apply keepsCached_refl.
Qed.

Lemma evolves_keeps (id : nat) (validator : AjvValidator) (w w' : World) :
  evolves w w' ->
  schemaValidatorCache w !! id = Some validator ->
  keepsCached id validator w w'.
Proof.
  induction 1 as [w | w w1 w2 toolset r _ IH Hrun
                    | w w1 w2 toolName tool schema args r _ IH Hrun];
    intros Hc.
  - by apply keepsCached_refl.
  - specialize (IH Hc). eapply keepsCached_trans; [exact IH |].
    eapply createMcpToolFunctions_loop_keeps; [exact (proj1 IH) | exact Hrun].
  - specialize (IH Hc). eapply keepsCached_trans; [exact IH |].
    eapply toolWrapper_keeps; [exact (proj1 IH) | exact Hrun].
Qed.

Lemma getAjvValidator_halves (schema : Schema) (w : World) :
  getAjvValidator schema w
  = (do found <- getAjvValidator_beforeAwait schema ;;
     match found with
     | inl validator => ret validator
     | inr json => getAjvValidator_afterAwait schema json
     end) w.
Proof.
  unfold getAjvValidator, getAjvValidator_beforeAwait, getAjvValidator_afterAwait,
    bindM, cache_get, liftO, ret.
  destruct (schemaValidatorCache w !! schema_id schema); [reflexivity |].
  destruct (jsonSchema schema); reflexivity.
Qed.

(** C4 (as amended). Builds and calls run one after the other here
    ([evolves] composes completed builds and calls; none begins while
    another is suspended at the [await] of [getAjvValidator]).  Then: a
    materialization that misses the cache and whose
    compilation succeeds invokes the compiler once and stores the
    validator under the schema's identity; from then on, whatever
    toolsets are built and wrappers called, the validator stays cached,
    the compiler is not invoked for that identity again, and a
    materialization for that identity returns the cached validator and
    leaves the world as it is; a resolved schema with its own validate
    function is used as it is, with no compilation and no cache entry. *)
Theorem validator_compiled_once_when_compilation_succeeds (w : World) :
  (forall schema json validator,
      schemaValidatorCache w !! schema_id schema = None ->
      jsonSchema schema = Ok json ->
      ajv_compile json = Ok validator ->
      exists w1,
        getAjvValidator schema w = (Ok validator, w1)
        /\ schemaValidatorCache w1
           = <[schema_id schema := validator]> (schemaValidatorCache w)
        /\ compileLog w1 = (compileLog w ++ [schema_id schema])%list)
  /\ (forall schema validator w',
        schemaValidatorCache w !! schema_id schema = Some validator ->
        evolves w w' ->
        keepsCached (schema_id schema) validator w w'
        /\ getAjvValidator schema w' = (Ok validator, w'))
  /\ (forall value resolved validate_fn,
        asSchema value = Ok resolved ->
        validate resolved = Some validate_fn ->
        buildValidatedSchema value w = (Ok resolved, w)).
Proof.
  split; [| split].
  - intros schema json validator Hmiss Hjson Hcompile.
    rewrite (getAjvValidator_miss _ _ _ Hmiss Hjson), Hcompile.
    eexists. split; [reflexivity |]. split; reflexivity.
  - intros schema validator w' Hc Hev.
    pose proof (evolves_keeps _ _ _ _ Hev Hc) as Hk.
    split; [exact Hk |]. apply getAjvValidator_hit. exact (proj1 Hk).
  - intros value resolved validate_fn Hres Hval.
    unfold buildValidatedSchema, bindM, liftO. rewrite Hres, Hval. reflexivity.
Qed.

End Cache.

(** The greeting schema is compiled once by its first materialization;
    a toolset built afterwards reuses the cached validator. *)
Lemma validator_compiled_once_witness :
  (exists w1,
     @getAjvValidator Fixture.libraries Fixture.greetSchema Fixture.emptyWorld
     = (Ok (Fixture.validator Fixture.greetJson), w1)
     /\ compileLog w1 = [1%nat])
  /\ keepsCached 1 (Fixture.validator Fixture.greetJson) Fixture.warmWorld
       (snd (@createMcpToolFunctions Fixture.libraries
               [("greet", Some Fixture.greet)] Fixture.warmWorld))
  /\ @buildValidatedSchema Fixture.libraries Fixture.stringHandle Fixture.emptyWorld
     = (Ok (mkSchema 4 (Ok (VObject [("type", VString "string")]))
              (Some Fixture.stringOnly)), Fixture.emptyWorld).
Proof.
  split; [| split].
  - destruct (proj1 (@validator_compiled_once_when_compilation_succeeds
                       Fixture.libraries Fixture.emptyWorld)
                Fixture.greetSchema Fixture.greetJson
                (Fixture.validator Fixture.greetJson) eq_refl eq_refl eq_refl)
      as [w1 [Hrun [_ Hlog]]].
    exists w1. split; [exact Hrun | exact Hlog].
  - refine (proj1 (proj1 (proj2 (@validator_compiled_once_when_compilation_succeeds
                                   Fixture.libraries Fixture.warmWorld))
                     Fixture.greetSchema (Fixture.validator Fixture.greetJson) _
                     eq_refl _)).
    eapply (@evolves_build Fixture.libraries);
      [apply (@evolves_refl Fixture.libraries) | apply surjective_pairing].
  - exact (proj2 (proj2 (@validator_compiled_once_when_compilation_succeeds
                           Fixture.libraries Fixture.emptyWorld))
             Fixture.stringHandle _ Fixture.stringOnly eq_refl eq_refl).
Defined.

(** C4 (as stated) fails on a schema the compiler refuses: nothing is
    cached, so building the same toolset twice invokes the compiler twice
    for the one schema identity. *)
Lemma compiler_invoked_twice_counterexample :
  exists e1 e2 w1 w2,
    @createMcpToolFunctions Fixture.libraries
      [("bad", Some Fixture.uncompilable)] Fixture.emptyWorld = (Throw e1, w1)
    /\ @createMcpToolFunctions Fixture.libraries
         [("bad", Some Fixture.uncompilable)] w1 = (Throw e2, w2)
    /\ schemaValidatorCache w2 !! 7%nat = None
    /\ count_occ Nat.eq_dec (compileLog w2) 7%nat = 2%nat.
Proof.
  do 4 eexists. split; [reflexivity |]. split; [reflexivity |].
  split; reflexivity.
Qed.

(** C4 (as stated) also fails when two materializations of one schema
    overlap: both look the schema up before either has stored its
    validator, so the compiler is invoked a second time although the first
    compilation succeeded and its validator is cached by then. *)
Example overlapping_materializations_compile_twice :
  exists w1 w2,
    @getAjvValidator_beforeAwait Fixture.greetSchema Fixture.emptyWorld
    = (Ok (inr Fixture.greetJson), Fixture.emptyWorld)
    /\ @getAjvValidator_afterAwait Fixture.libraries Fixture.greetSchema
         Fixture.greetJson Fixture.emptyWorld
       = (Ok (Fixture.validator Fixture.greetJson), w1)
    /\ schemaValidatorCache w1 !! 1%nat = Some (Fixture.validator Fixture.greetJson)
    /\ @getAjvValidator_afterAwait Fixture.libraries Fixture.greetSchema
         Fixture.greetJson w1
       = (Ok (Fixture.validator Fixture.greetJson), w2)
    /\ compileLog w2 = [1%nat; 1%nat].
Proof.
  do 2 eexists. split; [reflexivity |]. split; [reflexivity |].
  split; [apply lookup_insert_eq |]. split; reflexivity.
Qed.

(* ===================================================================== *)
(** ** Tool wrappers *)
(* ===================================================================== *)

Section Wrappers.
Context `{Libraries}.

Lemma ensureFlexibleSchema_Ok (value flexible : JsValue) :
  ensureFlexibleSchema value = Ok flexible -> flexible = value.
Proof.
  unfold ensureFlexibleSchema. destruct (isFlexibleSchema value); congruence.
Qed.

Lemma buildValidatedSchema_builtFor (tool : McpToolDefinition)
    (schema : Schema) (w w' : World) :
  buildValidatedSchema (inputSchema tool) w = (Ok schema, w') ->
  builtFor tool schema w'.
Proof.
  intros Hrun. unfold buildValidatedSchema, bindM, liftO in Hrun.
  destruct (asSchema (inputSchema tool)) as [resolved | e] eqn:Hres;
    [| discriminate].
  exists resolved. split; [exact Hres |].
  destruct (validate resolved) as [validate_fn |] eqn:Hval.
  - injection Hrun as <- <-. left. eauto.
  - destruct (getAjvValidator resolved w) as [[validator | e] w1] eqn:Hget;
      [| discriminate].
    injection Hrun as <- <-. right. split; [reflexivity |].
    exists validator. split; [| reflexivity].
    eapply getAjvValidator_cached. exact Hget.
Qed.

Lemma builtFor_validate (tool : McpToolDefinition) (schema : Schema) (w : World) :
  builtFor tool schema w -> exists validate_fn, validate schema = Some validate_fn.
Proof.
  intros [resolved [_ [[[validate_fn Hval] ->] | [_ [validator [_ ->]]]]]]; eauto.
Qed.

Lemma builtFor_later (tool : McpToolDefinition) (schema : Schema) (w w' : World) :
  (forall id validator,
      schemaValidatorCache w !! id = Some validator ->
      schemaValidatorCache w' !! id = Some validator) ->
  builtFor tool schema w -> builtFor tool schema w'.
Proof.
  intros Hmono [resolved [Hres [Hown | [Hnone [validator [Hc Hs]]]]]];
    exists resolved; split; try exact Hres; [left; exact Hown |].
  right. split; [exact Hnone |]. exists validator. split; [by apply Hmono | exact Hs].
Qed.

Lemma createToolWrapper_Ok (toolName : string) (tool : McpToolDefinition)
    (w w' : World) (wrapper : McpToolFunction) :
  createToolWrapper toolName tool w = (Ok wrapper, w') ->
  exists schema,
    isFlexibleSchema (inputSchema tool) = true
    /\ buildValidatedSchema (inputSchema tool) w = (Ok schema, w')
    /\ wrapper = toolWrapper toolName tool schema.
Proof.
  intros Hrun. unfold createToolWrapper, ensureFlexibleSchema, bindM, liftO, ret in Hrun.
  destruct (isFlexibleSchema (inputSchema tool)); [| discriminate].
  destruct (buildValidatedSchema (inputSchema tool) w) as [[schema | e] w1];
    [| discriminate].
  injection Hrun as <- <-. eauto.
Qed.

Lemma createMcpToolFunctions_loop_built (toolset : McpToolSet) (keys : list string) :
  forall (acc fs : gmap string McpToolFunction) (w w' : World),
    wrappersBuilt toolset acc w ->
    createMcpToolFunctions_loop toolset keys acc w = (Ok fs, w') ->
    wrappersBuilt toolset fs w'.
Proof.
  induction keys as [| key rest IH]; intros acc fs w w' Hinv Hrun; simpl in Hrun.
  - injection Hrun as <- <-. exact Hinv.
  - destruct (assoc key toolset) as [[tool |] |] eqn:Hentry;
      try (eapply IH; eauto; fail).
    unfold bindM in Hrun.
    destruct (createToolWrapper key tool w) as [[wrapper | e] w1] eqn:Hwrap;
      [| discriminate].
    eapply IH; [| exact Hrun].
    destruct (createToolWrapper_Ok _ _ _ _ _ Hwrap) as [schema [_ [Hbuild ->]]].
    intros k wr Hk. destruct (decide (key = k)) as [<- | Hne].
    + rewrite lookup_insert_eq in Hk. injection Hk as <-.
      exists tool, schema. split; [exact Hentry |]. split; [| reflexivity].
      by apply buildValidatedSchema_builtFor with (w := w).
    + rewrite lookup_insert_ne in Hk by exact Hne.
      destruct (Hinv k wr Hk) as [tool' [schema' [Ha [Hb Hw]]]].
      exists tool', schema'. split; [exact Ha |]. split; [| exact Hw].
      eapply builtFor_later; [| exact Hb].
      intros id validator Hc.
      exact (proj1 (createToolWrapper_keeps _ _ _ _ _ _ _ Hc Hwrap)).
Qed.

Lemma createMcpToolFunctions_built (toolset : McpToolSet)
    (fs : gmap string McpToolFunction) (w w' : World) :
  createMcpToolFunctions toolset w = (Ok fs, w') -> wrappersBuilt toolset fs w'.
Proof.
  apply createMcpToolFunctions_loop_built.
  intros key wrapper Hk. rewrite lookup_empty in Hk. discriminate.
Qed.

(** The four ways a call of a wrapper can go. *)
Lemma toolWrapper_run (toolName : string) (tool : McpToolDefinition)
    (schema : Schema) (validate_fn : JsValue -> Outcome ValidationResult)
    (args : JsValue) (w : World) :
  validate schema = Some validate_fn ->
  toolWrapper toolName tool schema args w
  = match validate_fn args with
    | Throw e => (Throw e, w)
    | Ok (Failure cause) => (Throw (TypeValidationError_wrap args cause), w)
    | Ok (Success validated) =>
        match execute tool with
        | None => (Throw (Error (missingExecuteMessage toolName)), w)
        | Some exec =>
            (exec validated (createExecutionOptions toolName),
             mkWorld (schemaValidatorCache w) (compileLog w)
               (executeLog w
                ++ [mkCall toolName validated (createExecutionOptions toolName)]))
        end
    end.
Proof.
  intros Hval. unfold toolWrapper, validateInput, bindM, liftO, throw, invoke.
  rewrite Hval. destruct (validate_fn args) as [[validated | cause] | e]; simpl;
    try reflexivity.
  destruct (execute tool); reflexivity.
Qed.

Lemma includes_append (needle prefix rest : string) :
  includes needle rest = true -> includes needle (prefix +:+ rest) = true.
Proof.
  intros Hin. induction prefix as [| c prefix IH]; simpl; [exact Hin |].
  rewrite IH. destruct needle; [reflexivity |].
  destruct (Ascii.ascii_dec a c); [destruct (String.prefix needle (prefix +:+ rest)) |];
    reflexivity.
Qed.

Lemma missingExecuteMessage_mentions (toolName : string) :
  includes "execute function" (missingExecuteMessage toolName) = true.
Proof.
  unfold missingExecuteMessage.
  do 4 apply includes_append. reflexivity.
Qed.

(** From a built mapping and a wrapper found in it: the tool, its validated
    schema and that schema's validate function. *)
Ltac wrapper_of Hrun Hlook tool schema validate_fn Hval :=
  let Hentry := fresh "Hentry" in
  let Hbuilt := fresh "Hbuilt" in
  destruct (createMcpToolFunctions_built _ _ _ _ Hrun _ _ Hlook)
    as [tool [schema [Hentry [Hbuilt ->]]]];
  destruct (builtFor_validate _ _ _ Hbuilt) as [validate_fn Hval];
  exists tool, schema, validate_fn; repeat (split; [assumption |]).

(** C1. A wrapper built by [createMcpToolFunctions] belongs to a defined
    tool of the toolset and validates with that tool's resolved schema.
    If the tool has an execute function, then
    - when the resolved schema validates on its own: on an argument it
      accepts, the wrapper calls execute exactly once, with the validated
      value and the options [{ toolCallId: "mcp:" + name, messages: [] }],
      and returns its result as it is; on an argument it refuses, the
      wrapper rejects with the typed validation error and calls nothing;
    - when it does not (a declared JSON Schema): the verdict is that of
      the compiled validator cached for the schema; on [true] the wrapper
      calls execute exactly once with the argument and those options and
      returns its result as it is; on [false] it rejects with the typed
      validation error for the argument, whose cause has the formatted
      violations as its message, and calls nothing. *)
Theorem wrapper_validates_then_executes (toolset : McpToolSet) (w w' : World)
    (fs : gmap string McpToolFunction) (toolName : string)
    (wrapper : McpToolFunction) :
  createMcpToolFunctions toolset w = (Ok fs, w') ->
  fs !! toolName = Some wrapper ->
  exists tool resolved,
    assoc toolName toolset = Some (Some tool)
    /\ asSchema (inputSchema tool) = Ok resolved
    /\ (forall validate_fn,
           validate resolved = Some validate_fn ->
           forall exec, execute tool = Some exec ->
           forall args wc,
             (forall validated,
                 validate_fn args = Ok (Success validated) ->
                 wrapper args wc
                 = (exec validated (mkOptions ("mcp:" +:+ toolName) []),
                    mkWorld (schemaValidatorCache wc) (compileLog wc)
                      (executeLog wc
                       ++ [mkCall toolName validated
                             (mkOptions ("mcp:" +:+ toolName) [])])))
             /\ (forall cause,
                    validate_fn args = Ok (Failure cause) ->
                    wrapper args wc
                    = (Throw (TypeValidationError_wrap args cause), wc)
                    /\ isTypeValidationError (TypeValidationError_wrap args cause)
                       = true))
    /\ (validate resolved = None ->
        exists validator,
          schemaValidatorCache w' !! schema_id resolved = Some validator
          /\ forall exec, execute tool = Some exec ->
             forall args wc,
               (ajv_result (validator args) = VBool true ->
                wrapper args wc
                = (exec args (mkOptions ("mcp:" +:+ toolName) []),
                   mkWorld (schemaValidatorCache wc) (compileLog wc)
                     (executeLog wc
                      ++ [mkCall toolName args
                            (mkOptions ("mcp:" +:+ toolName) [])])))
               /\ (ajv_result (validator args) = VBool false ->
                   wrapper args wc
                   = (Throw (TypeValidationError args
                               (Error (formatAjvErrors
                                         (ajv_errors (validator args))))), wc))).
Proof.
  intros Hrun Hlook.
  destruct (createMcpToolFunctions_built _ _ _ _ Hrun _ _ Hlook)
    as [tool [schema [Hentry [[resolved [Hres Hcase]] ->]]]].
  exists tool, resolved. split; [exact Hentry |]. split; [exact Hres |]. split.
  - intros validate_fn Hval exec Hexec args wc.
    destruct Hcase as [[_ ->] | [Hnone _]]; [| congruence].
    split.
    + intros validated Hok.
      rewrite (toolWrapper_run _ _ _ _ _ _ Hval), Hok, Hexec. reflexivity.
    + intros cause Hfail.
      rewrite (toolWrapper_run _ _ _ _ _ _ Hval), Hfail.
      split; [reflexivity | apply TypeValidationError_wrap_typed].
  - intros Hnone.
    destruct Hcase as [[[validate_fn Hval] _] | [_ [validator [Hcached ->]]]];
      [congruence |].
    exists validator. split; [exact Hcached |].
    intros exec Hexec args wc.
    rewrite (toolWrapper_run toolName tool
               (mkSchema (schema_id resolved) (jsonSchema resolved)
                  (Some (compiledValidate validator)))
               (compiledValidate validator) args wc eq_refl).
    unfold compiledValidate, ensureSyncValidation. split.
    + intros Htrue. rewrite Htrue. simpl. rewrite Hexec. reflexivity.
    + intros Hfalse. rewrite Hfalse. reflexivity.
Qed.

(** C10. In a wrapper of a tool without an execute function, validation
    comes first: an argument that fails validation rejects with the typed
    validation error (what [TypeValidationError.wrap] gives for the
    argument and the reported failure, always a typed error), an error
    raised by the validator is passed on, and the missing-execute error is
    what an argument that validates gets.  No call is recorded in any of
    the cases. *)
Theorem validation_precedes_execute_check (toolset : McpToolSet) (w w' : World)
    (fs : gmap string McpToolFunction) (toolName : string)
    (wrapper : McpToolFunction) :
  createMcpToolFunctions toolset w = (Ok fs, w') ->
  fs !! toolName = Some wrapper ->
  exists tool schema validate_fn,
    assoc toolName toolset = Some (Some tool)
    /\ builtFor tool schema w'
    /\ validate schema = Some validate_fn
    /\ (execute tool = None ->
        forall args wc,
          wrapper args wc
          = match validate_fn args with
            | Ok (Failure cause) =>
                (Throw (TypeValidationError_wrap args cause), wc)
            | Throw e => (Throw e, wc)
            | Ok (Success _) =>
                (Throw (Error ("MCP tool " +:+ dquote +:+ toolName +:+ dquote
                               +:+ " does not have an execute function.")), wc)
            end)
    /\ (forall args cause,
          isTypeValidationError (TypeValidationError_wrap args cause) = true).
Proof.
  intros Hrun Hlook. wrapper_of Hrun Hlook tool schema validate_fn Hval.
  split; [| intros args cause; apply TypeValidationError_wrap_typed].
  intros Hnone args wc.
  rewrite (toolWrapper_run _ _ _ _ _ _ Hval), Hnone.
  destruct (validate_fn args) as [[validated | cause] | e]; reflexivity.
Qed.

(** C2 (as amended). In a wrapper of a tool without an execute function,
    every call with an argument that passes validation rejects with an
    error whose message mentions ["execute function"]. *)
Theorem missing_execute_rejects_validated_input (toolset : McpToolSet)
    (w w' : World) (fs : gmap string McpToolFunction) (toolName : string)
    (wrapper : McpToolFunction) :
  createMcpToolFunctions toolset w = (Ok fs, w') ->
  fs !! toolName = Some wrapper ->
  exists tool schema validate_fn,
    assoc toolName toolset = Some (Some tool)
    /\ builtFor tool schema w'
    /\ validate schema = Some validate_fn
    /\ (execute tool = None ->
        forall args validated wc,
          validate_fn args = Ok (Success validated) ->
          exists e,
            wrapper args wc = (Throw e, wc)
            /\ includes "execute function" (error_message e) = true).
Proof.
  intros Hrun Hlook. wrapper_of Hrun Hlook tool schema validate_fn Hval.
  intros Hnone args validated wc Hok.
  rewrite (toolWrapper_run _ _ _ _ _ _ Hval), Hok, Hnone.
  eexists. split; [reflexivity |]. apply missingExecuteMessage_mentions.
Qed.

End Wrappers.

Lemma wrapper_validates_then_executes_witness :
  @createMcpToolFunctions Fixture.libraries Fixture.greetToolset Fixture.emptyWorld
  = (Ok Fixture.greetFunctions, Fixture.warmWorld)
  /\ Fixture.greetFunctions !! "greet" = Some Fixture.greetWrapper
  /\ Fixture.greetWrapper Fixture.bob Fixture.warmWorld
     = (Ok (VString "hello bob"),
        mkWorld (schemaValidatorCache Fixture.warmWorld) [1%nat]
          [mkCall "greet" Fixture.bob (mkOptions "mcp:greet" [])])
  /\ Fixture.greetWrapper Fixture.notAName Fixture.warmWorld
     = (Throw (TypeValidationError Fixture.notAName
                 (Error "/name: must be string")), Fixture.warmWorld).
Proof.
  split; [reflexivity |]. split; [apply lookup_insert_eq |].
  destruct (@wrapper_validates_then_executes Fixture.libraries
              Fixture.greetToolset Fixture.emptyWorld Fixture.warmWorld
              Fixture.greetFunctions "greet" Fixture.greetWrapper
              eq_refl (lookup_insert_eq _ _ _))
    as [tool [resolved [Hentry [Hres [_ Hcompiled]]]]].
  change (Some (Some Fixture.greet) = Some (Some tool)) in Hentry.
  injection Hentry as <-.
  change (Ok Fixture.greetSchema = Ok resolved) in Hres.
  injection Hres as <-.
  destruct (Hcompiled eq_refl) as [validator [Hcached Hcalls]].
  change (<[1%nat := Fixture.validator Fixture.greetJson]>
            (∅ : gmap nat AjvValidator) !! 1%nat = Some validator) in Hcached.
  rewrite lookup_insert_eq in Hcached. injection Hcached as <-.
  split.
  - exact (proj1 (Hcalls Fixture.greetExecute eq_refl Fixture.bob
                    Fixture.warmWorld) eq_refl).
  - exact (proj2 (Hcalls Fixture.greetExecute eq_refl Fixture.notAName
                    Fixture.warmWorld) eq_refl).
Defined.

(** The calls of [test/mcp-to-ts.test.ts] on the greeting tool. *)
Example greet_bob :
  Fixture.greetWrapper Fixture.bob Fixture.warmWorld
  = (Ok (VString "hello bob"),
     mkWorld (schemaValidatorCache Fixture.warmWorld) [1%nat]
       [mkCall "greet" Fixture.bob (mkOptions "mcp:greet" [])]).
Proof. reflexivity. Qed.

Example greet_not_a_name :
  Fixture.greetWrapper Fixture.notAName Fixture.warmWorld
  = (Throw (TypeValidationError Fixture.notAName (Error "/name: must be string")),
     Fixture.warmWorld).
Proof. reflexivity. Qed.

Lemma validation_precedes_execute_check_witness :
  @createMcpToolFunctions Fixture.libraries Fixture.noopToolset Fixture.emptyWorld
  = (Ok Fixture.noopFunctions, Fixture.noopWorld)
  /\ Fixture.noopFunctions !! "noop" = Some Fixture.noopWrapper
  /\ exists tool schema validate_fn,
       assoc "noop" Fixture.noopToolset = Some (Some tool)
       /\ @builtFor Fixture.libraries tool schema Fixture.noopWorld
       /\ validate schema = Some validate_fn.
Proof.
  split; [reflexivity |]. split; [apply lookup_insert_eq |].
  destruct (@validation_precedes_execute_check Fixture.libraries
              Fixture.noopToolset Fixture.emptyWorld Fixture.noopWorld
              Fixture.noopFunctions "noop" Fixture.noopWrapper
              eq_refl (lookup_insert_eq _ _ _))
    as [tool [schema [validate_fn [Hentry [Hbuilt [Hval _]]]]]].
  exists tool, schema, validate_fn. repeat split; assumption.
Defined.

Lemma missing_execute_rejects_validated_input_witness :
  @createMcpToolFunctions Fixture.libraries Fixture.noopToolset Fixture.emptyWorld
  = (Ok Fixture.noopFunctions, Fixture.noopWorld)
  /\ Fixture.noopFunctions !! "noop" = Some Fixture.noopWrapper
  /\ exists tool schema validate_fn,
       assoc "noop" Fixture.noopToolset = Some (Some tool)
       /\ validate schema = Some validate_fn.
Proof.
  split; [reflexivity |]. split; [apply lookup_insert_eq |].
  destruct (@missing_execute_rejects_validated_input Fixture.libraries
              Fixture.noopToolset Fixture.emptyWorld Fixture.noopWorld
              Fixture.noopFunctions "noop" Fixture.noopWrapper
              eq_refl (lookup_insert_eq _ _ _))
    as [tool [schema [validate_fn [Hentry [_ [Hval _]]]]]].
  exists tool, schema, validate_fn. repeat split; assumption.
Defined.

Example noop_empty_object :
  Fixture.noopWrapper (VObject []) Fixture.noopWorld
  = (Throw (Error (missingExecuteMessage "noop")), Fixture.noopWorld).
Proof. reflexivity. Qed.

(** C2 (as stated) fails on an argument that does not validate: the
    wrapper of the tool without an execute function rejects the number
    [123] with the typed validation error, whose message does not mention
    ["execute function"]. *)
Lemma missing_execute_not_for_every_input_counterexample :
  @createMcpToolFunctions Fixture.libraries Fixture.noopToolset Fixture.emptyWorld
  = (Ok Fixture.noopFunctions, Fixture.noopWorld)
  /\ Fixture.noopFunctions !! "noop" = Some Fixture.noopWrapper
  /\ execute Fixture.noop = None
  /\ Fixture.noopWrapper (VNumber 123) Fixture.noopWorld
     = (Throw (TypeValidationError (VNumber 123) (Error "error 1: must be object")),
        Fixture.noopWorld)
  /\ includes "execute function"
       (error_message
          (TypeValidationError (VNumber 123) (Error "error 1: must be object")))
     = false.
Proof.
  split; [reflexivity |]. split; [apply lookup_insert_eq |].
  split; [reflexivity |]. split; reflexivity.
Qed.

(* ===================================================================== *)
(** ** Toolset enumeration *)
(* ===================================================================== *)

Section Enumeration.
Context `{Libraries}.

Lemma assoc_app_l {A : Type} (key : string) (pre post : list (string * A)) :
  In key (map fst pre) -> assoc key (pre ++ post) = assoc key pre.
Proof.
  induction pre as [| [k x] pre IH]; simpl; [tauto |].
  intros [-> | Hin].
  - rewrite String.eqb_refl. reflexivity.
  - destruct (String.eqb k key); [reflexivity | by apply IH].
Qed.

Lemma assoc_app_r {A : Type} (key : string) (pre post : list (string * A)) :
  ~ In key (map fst pre) -> assoc key (pre ++ post) = assoc key post.
Proof.
  induction pre as [| [k x] pre IH]; simpl; [reflexivity |].
  intros Hnot. destruct (String.eqb_spec k key) as [-> | Hne]; [tauto |].
  apply IH. tauto.
Qed.

Lemma assoc_In_NoDup {A : Type} (key : string) (x : A) (l : list (string * A)) :
  List.NoDup (map fst l) -> In (key, x) l -> assoc key l = Some x.
Proof.
  induction l as [| [k y] l IH]; simpl; [tauto |].
  intros Hnd [Heq | Hin].
  - injection Heq as -> ->. rewrite String.eqb_refl. reflexivity.
  - apply List.NoDup_cons_iff in Hnd as [Hnot Hnd].
    destruct (String.eqb_spec k key) as [-> | Hne].
    + exfalso. apply Hnot. change key with (fst (key, x)). by apply in_map.
    + by apply IH.
Qed.

Lemma createMcpToolFunctions_loop_agree (ts1 ts2 : McpToolSet) (keys : list string) :
  (forall key, In key keys -> assoc key ts1 = assoc key ts2) ->
  forall acc w,
    createMcpToolFunctions_loop ts1 keys acc w
    = createMcpToolFunctions_loop ts2 keys acc w.
Proof.
  induction keys as [| key rest IH]; intros Hagree acc w; simpl; [reflexivity |].
  rewrite <- (Hagree key) by (left; reflexivity).
  assert (Hrest : forall k, In k rest -> assoc k ts1 = assoc k ts2)
    by (intros k Hk; apply Hagree; right; exact Hk).
  destruct (assoc key ts1) as [[tool |] |]; try (by apply IH).
  unfold bindM. destruct (createToolWrapper key tool w) as [[wrapper | e] w1];
    [by apply IH | reflexivity].
Qed.

Lemma createMcpToolFunctions_loop_app (toolset : McpToolSet) (ks1 ks2 : list string) :
  forall acc w,
    createMcpToolFunctions_loop toolset (ks1 ++ ks2) acc w
    = match createMcpToolFunctions_loop toolset ks1 acc w with
      | (Ok acc', w1) => createMcpToolFunctions_loop toolset ks2 acc' w1
      | (Throw e, w1) => (Throw e, w1)
      end.
Proof.
  induction ks1 as [| key rest IH]; intros acc w; simpl; [reflexivity |].
  destruct (assoc key toolset) as [[tool |] |]; try apply IH.
  unfold bindM. destruct (createToolWrapper key tool w) as [[wrapper | e] w1];
    [apply IH | reflexivity].
Qed.

(** C7. When the entries before some defined entry are processed
    successfully and the construction of that entry's wrapper raises an
    error, [createMcpToolFunctions] ends with that very error and no
    mapping, whatever entries follow; an unsupported schema shape is such
    an error. *)
Theorem construction_error_aborts_the_pass (pre post : McpToolSet)
    (toolName : string) (tool : McpToolDefinition) (w w1 : World)
    (fs : gmap string McpToolFunction) :
  List.NoDup (Object_keys (pre ++ (toolName, Some tool) :: post)) ->
  createMcpToolFunctions pre w = (Ok fs, w1) ->
  (forall e w2,
      createToolWrapper toolName tool w1 = (Throw e, w2) ->
      createMcpToolFunctions (pre ++ (toolName, Some tool) :: post) w
      = (Throw e, w2))
  /\ (~ supportedShape (inputSchema tool) ->
      createMcpToolFunctions (pre ++ (toolName, Some tool) :: post) w
      = (Throw (Error "Tool input schema is not a supported schema."), w1)).
Proof.
  intros Hnd Hpre.
  assert (Hfail : forall e w2,
             createToolWrapper toolName tool w1 = (Throw e, w2) ->
             createMcpToolFunctions (pre ++ (toolName, Some tool) :: post) w
             = (Throw e, w2)).
  { intros e w2 Hwrap.
    unfold createMcpToolFunctions, Object_keys in *.
    rewrite map_app in *. simpl map in *.
    rewrite createMcpToolFunctions_loop_app.
    rewrite (createMcpToolFunctions_loop_agree
               (pre ++ (toolName, Some tool) :: post) pre)
      by (intros key Hkey; by apply assoc_app_l).
    rewrite Hpre. simpl.
    apply List.NoDup_remove_2 in Hnd.
    rewrite assoc_app_r by (intros Hin; apply Hnd; apply in_or_app; tauto).
    simpl. rewrite String.eqb_refl. unfold bindM. rewrite Hwrap. reflexivity. }
  split; [exact Hfail |].
  intros Hshape. apply Hfail.
  unfold createToolWrapper, bindM, liftO.
  rewrite (ensureFlexibleSchema_unsupported _ Hshape). reflexivity.
Qed.

Lemma withoutFalsy_cons_defined (key : string) (tool : McpToolDefinition)
    (rest : McpToolSet) :
  withoutFalsy ((key, Some tool) :: rest) = (key, Some tool) :: withoutFalsy rest.
Proof. reflexivity. Qed.

Lemma withoutFalsy_cons_falsy (key : string) (rest : McpToolSet) :
  withoutFalsy ((key, None) :: rest) = withoutFalsy rest.
Proof. reflexivity. Qed.

Lemma In_withoutFalsy (key : string) (x : option McpToolDefinition)
    (toolset : McpToolSet) :
  In (key, x) (withoutFalsy toolset) -> In (key, x) toolset.
Proof.
  induction toolset as [| [k [tool |]] rest IH].
  - intros [].
  - rewrite withoutFalsy_cons_defined. intros [Heq | Hin]; [left; exact Heq |].
    right. by apply IH.
  - rewrite withoutFalsy_cons_falsy. intros Hin. right. by apply IH.
Qed.

Lemma NoDup_withoutFalsy (toolset : McpToolSet) :
  List.NoDup (Object_keys toolset) -> List.NoDup (Object_keys (withoutFalsy toolset)).
Proof.
  unfold Object_keys.
  induction toolset as [| [k [tool |]] rest IH]; intros Hnd.
  - constructor.
  - rewrite withoutFalsy_cons_defined. simpl in *.
    apply List.NoDup_cons_iff in Hnd as [Hnot Hnd].
    apply List.NoDup_cons; [| by apply IH].
    intros Hin. apply Hnot. apply in_map_iff in Hin as [[k' x] [Hk Hin]].
    simpl in Hk. subst k'. apply In_withoutFalsy in Hin.
    change k with (fst (k, x)). by apply in_map.
  - rewrite withoutFalsy_cons_falsy. simpl in Hnd.
    apply List.NoDup_cons_iff in Hnd as [_ Hnd]. by apply IH.
Qed.

Lemma toolInfo_resolvable (toolName : string) (tool : McpToolDefinition) :
  resolvable tool ->
  exists json,
    toolInfo toolName tool
    = Ok (mkInfo toolName (description tool) (title tool) json).
Proof.
  intros [Hshape [schema [json [Hres Hjson]]]].
  exists json. unfold toolInfo.
  rewrite (ensureFlexibleSchema_supported _ Hshape).
  simpl. rewrite Hres. simpl. rewrite Hjson. reflexivity.
Qed.

Lemma listMcpToolsFromToolSet_loop_defined (toolset entries : McpToolSet) :
  (forall key x, In (key, x) entries -> assoc key toolset = Some x) ->
  Forall (fun entry => resolvable (snd entry)) (definedEntries entries) ->
  forall acc, exists infos,
    listMcpToolsFromToolSet_loop toolset (map fst entries) acc = Ok (acc ++ infos)
    /\ Forall2 describes (definedEntries entries) infos.
Proof.
  induction entries as [| [k [tool |]] rest IH]; intros Hlook Hres acc.
  - exists []. simpl. rewrite app_nil_r. split; [reflexivity | constructor].
  - simpl. rewrite (Hlook k (Some tool)) by (left; reflexivity).
    simpl in Hres. inversion Hres as [| ? ? Htool Hrest]; subst.
    destruct (toolInfo_resolvable k tool Htool) as [json ->]. simpl.
    destruct (IH (fun key x Hin => Hlook key x (or_intror Hin)) Hrest
                (acc ++ [mkInfo k (description tool) (title tool) json]))
      as [infos [Hrun Hdesc]].
    exists (mkInfo k (description tool) (title tool) json :: infos).
    rewrite Hrun, <- app_assoc. split; [reflexivity |].
    constructor; [repeat split | exact Hdesc].
  - simpl. rewrite (Hlook k None) by (left; reflexivity).
    apply IH; [intros key x Hin; apply Hlook; right; exact Hin | exact Hres].
Qed.

Lemma listMcpToolsFromToolSet_loop_skips (ts ts' entries : McpToolSet) :
  (forall key x, In (key, x) entries -> assoc key ts = Some x) ->
  (forall key x, In (key, x) (withoutFalsy entries) -> assoc key ts' = Some x) ->
  forall acc,
    listMcpToolsFromToolSet_loop ts (map fst entries) acc
    = listMcpToolsFromToolSet_loop ts' (map fst (withoutFalsy entries)) acc.
Proof.
  induction entries as [| [k [tool |]] rest IH]; intros Hlook Hlook' acc.
  - reflexivity.
  - rewrite withoutFalsy_cons_defined in *. simpl.
    rewrite (Hlook k (Some tool)) by (left; reflexivity).
    rewrite (Hlook' k (Some tool)) by (left; reflexivity).
    destruct (toolInfo k tool) as [info | e]; simpl; [| reflexivity].
    apply IH; intros key x Hin; [apply Hlook | apply Hlook']; right; exact Hin.
  - rewrite withoutFalsy_cons_falsy in *. simpl.
    rewrite (Hlook k None) by (left; reflexivity).
    apply IH; [intros key x Hin; apply Hlook; right; exact Hin | exact Hlook'].
Qed.

Lemma createMcpToolFunctions_loop_skips (ts ts' entries : McpToolSet) :
  (forall key x, In (key, x) entries -> assoc key ts = Some x) ->
  (forall key x, In (key, x) (withoutFalsy entries) -> assoc key ts' = Some x) ->
  forall acc w,
    createMcpToolFunctions_loop ts (map fst entries) acc w
    = createMcpToolFunctions_loop ts' (map fst (withoutFalsy entries)) acc w.
Proof.
  induction entries as [| [k [tool |]] rest IH]; intros Hlook Hlook' acc w.
  - reflexivity.
  - rewrite withoutFalsy_cons_defined in *. simpl.
    rewrite (Hlook k (Some tool)) by (left; reflexivity).
    rewrite (Hlook' k (Some tool)) by (left; reflexivity).
    unfold bindM. destruct (createToolWrapper k tool w) as [[wrapper | e] w1];
      [| reflexivity].
    apply IH; intros key x Hin; [apply Hlook | apply Hlook']; right; exact Hin.
  - rewrite withoutFalsy_cons_falsy in *. simpl.
    rewrite (Hlook k None) by (left; reflexivity).
    apply IH; [intros key x Hin; apply Hlook; right; exact Hin | exact Hlook'].
Qed.

(** C3 (as amended). For a toolset whose defined entries all carry a
    supported input schema with a JSON representation,
    [listMcpToolsFromToolSet] returns one record per defined entry, in
    key enumeration order, each with the entry's key, description and
    title.  For every toolset, a falsy entry is skipped by the listing
    and by [createMcpToolFunctions]: both behave as on the toolset
    without its falsy entries, and a built mapping has no wrapper under
    the key of a falsy entry. *)
Theorem listing_one_record_per_supported_entry (toolset : McpToolSet) :
  List.NoDup (Object_keys toolset) ->
  (Forall (fun entry => resolvable (snd entry)) (definedEntries toolset) ->
   exists infos,
     listMcpToolsFromToolSet toolset = Ok infos
     /\ Forall2 describes (definedEntries toolset) infos)
  /\ listMcpToolsFromToolSet toolset
     = listMcpToolsFromToolSet (withoutFalsy toolset)
  /\ (forall w,
        createMcpToolFunctions toolset w
        = createMcpToolFunctions (withoutFalsy toolset) w)
  /\ (forall w fs w' key,
        createMcpToolFunctions toolset w = (Ok fs, w') ->
        In (key, None) toolset ->
        fs !! key = None).
Proof.
  intros Hnd.
  assert (Hlook : forall key x, In (key, x) toolset -> assoc key toolset = Some x)
    by (intros key x; by apply assoc_In_NoDup).
  assert (Hlook' : forall key x, In (key, x) (withoutFalsy toolset) ->
                                 assoc key (withoutFalsy toolset) = Some x)
    by (intros key x; apply assoc_In_NoDup; by apply NoDup_withoutFalsy).
  split; [| split; [| split]].
  - intros Hres.
    destruct (listMcpToolsFromToolSet_loop_defined toolset toolset Hlook Hres [])
      as [infos [Hrun Hdesc]].
    exists infos. split; [exact Hrun | exact Hdesc].
  - by apply listMcpToolsFromToolSet_loop_skips.
  - intros w. by apply createMcpToolFunctions_loop_skips.
  - intros w fs w' key Hrun Hin.
    destruct (fs !! key) as [wrapper |] eqn:Hk; [| reflexivity].
    destruct (createMcpToolFunctions_built _ _ _ _ Hrun _ _ Hk)
      as [tool [schema [Hentry _]]].
    rewrite (Hlook key None Hin) in Hentry. discriminate.
Qed.

End Enumeration.

Lemma construction_error_aborts_the_pass_witness :
  @createMcpToolFunctions Fixture.libraries Fixture.greetToolset Fixture.emptyWorld
  = (Ok Fixture.greetFunctions, Fixture.warmWorld)
  /\ @createMcpToolFunctions Fixture.libraries
       (Fixture.greetToolset ++ [("raw", Some Fixture.unsupported);
                                 ("noop", Some Fixture.noop)])
       Fixture.emptyWorld
     = (Throw (Error "Tool input schema is not a supported schema."),
        Fixture.warmWorld).
Proof.
  split; [reflexivity |].
  refine (proj1 (@construction_error_aborts_the_pass Fixture.libraries
                   Fixture.greetToolset [("noop", Some Fixture.noop)]
                   "raw" Fixture.unsupported Fixture.emptyWorld Fixture.warmWorld
                   Fixture.greetFunctions _ eq_refl) _ _ eq_refl).
  repeat constructor; simpl; intuition discriminate.
Defined.

Lemma listing_one_record_per_supported_entry_witness :
  exists infos,
    @listMcpToolsFromToolSet Fixture.libraries
      [("calc", Some Fixture.calc); ("gone", None)] = Ok infos
    /\ Forall2 describes [("calc", Fixture.calc)] infos.
Proof.
  refine (proj1 (@listing_one_record_per_supported_entry Fixture.libraries
                   [("calc", Some Fixture.calc); ("gone", None)] _) _).
  - repeat constructor; simpl; intuition discriminate.
  - constructor; [| constructor]. split.
    + right; right. split; [left; eauto | split; reflexivity].
    + do 2 eexists. split; reflexivity.
Defined.

Example list_calc :
  @listMcpToolsFromToolSet Fixture.libraries
    [("calc", Some Fixture.calc); ("gone", None)]
  = Ok [mkInfo "calc" (Some "Adds values") (Some "Calculator")
          (VObject [("type", VString "object");
                    ("properties",
                     VObject [("value", VObject [("type", VString "number")])]);
                    ("required", VArray [VString "value"])])].
Proof. reflexivity. Qed.

(** C3 (as stated) fails on a toolset with a defined entry whose input
    schema has no supported shape: the listing raises the unsupported-schema
    error and returns no record, neither for that entry nor for the
    supported one before it. *)
Lemma listing_unsupported_entry_counterexample :
  definedEntries [("calc", Some Fixture.calc); ("raw", Some Fixture.unsupported)]
  = [("calc", Fixture.calc); ("raw", Fixture.unsupported)]
  /\ @listMcpToolsFromToolSet Fixture.libraries
       [("calc", Some Fixture.calc); ("raw", Some Fixture.unsupported)]
     = Throw (Error "Tool input schema is not a supported schema.").
Proof. split; reflexivity. Qed.

(* ===================================================================== *)
(** ** Further properties: formatting of violations *)
(* ===================================================================== *)

Lemma readOptionalString_object (value : JsValue) (key text : string) :
  readOptionalString value key = Some text -> nonNullObject value.
Proof.
  unfold readOptionalString, nonNullObject.
  destruct value; cbn [typeof]; simpl String.eqb; simpl negb; simpl orb; cbv iota;
    try discriminate; eauto.
Qed.

(** X1. [readOptionalString] yields a string exactly when the value is a
    non-null object (or array) whose property under the key is a string,
    and then it yields that string. *)
Theorem readOptionalString_Some_iff (value : JsValue) (key text : string) :
  readOptionalString value key = Some text
  <-> nonNullObject value /\ Reflect_get value key = VString text.
Proof.
  unfold readOptionalString, nonNullObject.
  destruct value; cbn [typeof]; simpl String.eqb; simpl negb; simpl orb; cbv iota;
    try (split; [discriminate | intros [[[? ?] | [? ?]] _]; discriminate]).
  - split.
    + intros Hget. split; [right; eauto |].
      destruct (Reflect_get (VArray elems) key); congruence.
    + intros [_ ->]. reflexivity.
  - split.
    + intros Hget. split; [left; eauto |].
      destruct (Reflect_get (VObject props) key); congruence.
    + intros [_ ->]. reflexivity.
Qed.

(** X2. When what the validator left as its errors is not an array, or is
    an empty array, the formatted message is the generic one, and a
    validator that answers [false] in that state gives a failure result
    with exactly that message. *)
Theorem formatAjvErrors_without_violations (validator : AjvValidator)
    (value errors : JsValue) :
  (forall elems, errors = VArray elems -> elems = []) ->
  formatAjvErrors errors = "Input did not match the expected schema."
  /\ (validator value = mkAjvRun (VBool false) errors ->
      compiledValidate validator value
      = Ok (Failure (Error "Input did not match the expected schema."))).
Proof.
  intros Hnone.
  assert (Hfmt : formatAjvErrors errors = "Input did not match the expected schema.").
  { destruct errors as [| | | | | | elems |]; try reflexivity.
    rewrite (Hnone elems eq_refl). reflexivity. }
  split; [exact Hfmt |].
  intros Hrun. unfold compiledValidate, ensureSyncValidation. rewrite Hrun.
  cbn [ajv_result ajv_errors bindO]. rewrite Hfmt. reflexivity.
Qed.

Lemma formatAjvErrors_without_violations_witness :
  formatAjvErrors VNull = "Input did not match the expected schema."
  /\ compiledValidate (fun _ => mkAjvRun (VBool false) VNull) (VNumber 1)
     = Ok (Failure (Error "Input did not match the expected schema.")).
Proof.
  destruct (formatAjvErrors_without_violations
              (fun _ => mkAjvRun (VBool false) VNull) (VNumber 1) VNull)
    as [Hfmt Hrun].
  - intros elems Heq. discriminate.
  - split; [exact Hfmt | exact (Hrun eq_refl)].
Defined.

(** X3. An entry of the error list that is not a non-null object (a
    string, a number, [null], ...) is reported under its 1-based position
    with the text ["invalid input"]. *)
Theorem formatAjvError_not_an_object (index : nat) (error : JsValue) :
  ~ nonNullObject error ->
  formatAjvError index error
  = "error " +:+ pretty (index + 1)%nat +:+ ": invalid input".
Proof.
  intros Hnot.
  assert (Hread : forall key, readOptionalString error key = None).
  { intros key. destruct (readOptionalString error key) as [text |] eqn:Hr;
      [| reflexivity].
    apply readOptionalString_object in Hr. contradiction. }
  unfold formatAjvError. rewrite !Hread. reflexivity.
Qed.

Lemma formatAjvError_not_an_object_witness :
  formatAjvError 2 (VString "oops") = "error 3: invalid input".
Proof.
  refine (formatAjvError_not_an_object 2 (VString "oops") _).
  intros [[props Heq] | [elems Heq]]; discriminate.
Defined.

(** X4. Where a violation is located.  For an error object with a
    non-empty string message: a non-empty [instancePath] is the location;
    an empty [instancePath] gives the positional label even when a
    [dataPath] is present; and a non-empty [dataPath] is the location only
    when [instancePath] is not a string at all. *)
Theorem formatAjvError_location (index : nat) (props : list (string * JsValue))
    (c : ascii) (rest : string) :
  assoc "message" props = Some (VString (String c rest)) ->
  (forall a path,
      assoc "instancePath" props = Some (VString (String a path)) ->
      formatAjvError index (VObject props)
      = String a path +:+ ": " +:+ String c rest)
  /\ (assoc "instancePath" props = Some (VString EmptyString) ->
      formatAjvError index (VObject props)
      = "error " +:+ pretty (index + 1)%nat +:+ ": " +:+ String c rest)
  /\ (forall a path,
        (forall text, assoc "instancePath" props <> Some (VString text)) ->
        assoc "dataPath" props = Some (VString (String a path)) ->
        formatAjvError index (VObject props)
        = String a path +:+ ": " +:+ String c rest).
Proof.
  intros Hmsg. unfold formatAjvError. rewrite !readOptionalString_props, Hmsg.
  split; [| split].
  - intros a path Hpath. rewrite Hpath. reflexivity.
  - intros Hpath. rewrite Hpath. reflexivity.
  - intros a path Hnot Hdata. rewrite Hdata.
    destruct (assoc "instancePath" props) as [[| | | | text | | |] |];
      try reflexivity.
    exfalso. exact (Hnot text eq_refl).
Qed.

Lemma formatAjvError_location_witness :
  formatAjvError 0
    (VObject [("instancePath", VString EmptyString);
              ("dataPath", VString ".name"); ("message", VString "bad")])
  = "error 1: bad"
  /\ formatAjvError 0
       (VObject [("dataPath", VString ".name"); ("message", VString "bad")])
     = ".name: bad".
Proof.
  split.
  - exact (proj1 (proj2 (formatAjvError_location 0
             [("instancePath", VString EmptyString);
              ("dataPath", VString ".name"); ("message", VString "bad")]
             "b"%char "ad" eq_refl)) eq_refl).
  - refine (proj2 (proj2 (formatAjvError_location 0
              [("dataPath", VString ".name"); ("message", VString "bad")]
              "b"%char "ad" eq_refl)) "."%char "name" _ eq_refl).
    intros text Heq. discriminate.
Defined.

(* ===================================================================== *)
(** ** Further properties: validated schemas and wrapper calls *)
(* ===================================================================== *)

Section WrapperCalls.
Context `{Libraries}.

(** X5. A schema without a validate operation makes [validateInput] raise
    the missing-validation error on every value; the schema that
    [buildValidatedSchema] returns is never such a schema.  It is the
    resolved handle itself, with the world untouched, when that handle
    validates on its own; otherwise its validate operation is the closure
    over the validator that [getAjvValidator] gave for the handle. *)
Theorem buildValidatedSchema_exposes_validate (value : JsValue) (w w' : World)
    (schema : Schema) :
  buildValidatedSchema value w = (Ok schema, w') ->
  (exists resolved,
      asSchema value = Ok resolved
      /\ ((exists validate_fn,
              validate resolved = Some validate_fn
              /\ validate schema = Some validate_fn)
          /\ schema = resolved /\ w' = w
          \/ validate resolved = None
             /\ exists validator,
                  getAjvValidator resolved w = (Ok validator, w')
                  /\ validate schema = Some (compiledValidate validator)))
  /\ (forall other input,
        validate other = None ->
        validateInput input other
        = Throw (Error "Input schema does not provide validation.")
        /\ other <> schema).
Proof.
  intros Hrun.
  assert (Hsome : exists resolved,
             asSchema value = Ok resolved
             /\ ((exists validate_fn,
                     validate resolved = Some validate_fn
                     /\ validate schema = Some validate_fn)
                 /\ schema = resolved /\ w' = w
                 \/ validate resolved = None
                    /\ exists validator,
                         getAjvValidator resolved w = (Ok validator, w')
                         /\ validate schema = Some (compiledValidate validator))).
  { unfold buildValidatedSchema, bindM, liftO in Hrun.
    destruct (asSchema value) as [resolved | e]; [| discriminate].
    exists resolved. split; [reflexivity |].
    destruct (validate resolved) as [validate_fn |] eqn:Hval.
    - injection Hrun as <- <-. left. eauto.
    - destruct (getAjvValidator resolved w) as [[validator | e] w1];
        [| discriminate].
      injection Hrun as <- <-. right. split; [reflexivity |]. eauto. }
  split; [exact Hsome |].
  intros other input Hnone. split.
  - unfold validateInput. rewrite Hnone. reflexivity.
  - intros ->.
    destruct Hsome as [_ [_ [[[validate_fn [_ Hval]] _] | [_ [validator [_ Hval]]]]]];
      congruence.
Qed.

(** X6. An error raised by the validate operation itself is passed on by
    the wrapper as it is, not wrapped into the typed validation error, and
    nothing is executed.  So a wrapper over a compiled validator that
    answers with a non-boolean rejects every such call with the plain
    asynchronous-validation error, whether or not the tool can execute. *)
Theorem toolWrapper_passes_validator_errors (toolName : string)
    (tool : McpToolDefinition) (schema : Schema)
    (validate_fn : JsValue -> Outcome ValidationResult)
    (args : JsValue) (w : World) :
  validate schema = Some validate_fn ->
  (forall e, validate_fn args = Throw e ->
     validateInput args schema = Throw e
     /\ toolWrapper toolName tool schema args w = (Throw e, w))
  /\ (forall validator,
        validate_fn = compiledValidate validator ->
        typeof (ajv_result (validator args)) <> "boolean" ->
        toolWrapper toolName tool schema args w
        = (Throw (Error "Async JSON schema validation is not supported."), w)).
Proof.
  intros Hval.
  assert (Hpass : forall e, validate_fn args = Throw e ->
             validateInput args schema = Throw e
             /\ toolWrapper toolName tool schema args w = (Throw e, w)).
  { intros e Hthrow. split.
    - unfold validateInput. rewrite Hval, Hthrow. reflexivity.
    - rewrite (toolWrapper_run _ _ _ _ _ _ Hval), Hthrow. reflexivity. }
  split; [exact Hpass |].
  intros validator -> Htype. apply Hpass.
  unfold compiledValidate, ensureSyncValidation.
  destruct (ajv_result (validator args)); try reflexivity.
  exfalso. apply Htype. reflexivity.
Qed.

(** X7. A wrapper over a compiled validator hands the argument itself to
    [execute]: when the validator answers [true] the tool is called once
    with the very value the wrapper was called with; when it answers
    [false] the typed validation error carries that value and a plain
    error whose message is the formatted list of violations. *)
Theorem toolWrapper_compiled_verdict (toolName : string)
    (tool : McpToolDefinition) (id : nat) (json : Outcome JsValue)
    (validator : AjvValidator) (args : JsValue) (w : World) :
  (ajv_result (validator args) = VBool true ->
   forall exec, execute tool = Some exec ->
     toolWrapper toolName tool
       (mkSchema id json (Some (compiledValidate validator))) args w
     = (exec args (createExecutionOptions toolName),
        mkWorld (schemaValidatorCache w) (compileLog w)
          (executeLog w ++ [mkCall toolName args (createExecutionOptions toolName)])))
  /\ (ajv_result (validator args) = VBool false ->
      toolWrapper toolName tool
        (mkSchema id json (Some (compiledValidate validator))) args w
      = (Throw (TypeValidationError args
                  (Error (formatAjvErrors (ajv_errors (validator args))))), w)).
Proof.
  split.
  - intros Htrue exec Hexec.
    rewrite (toolWrapper_run toolName tool
               (mkSchema id json (Some (compiledValidate validator)))
               (compiledValidate validator) args w eq_refl).
    unfold compiledValidate, ensureSyncValidation. rewrite Htrue. simpl.
    rewrite Hexec. reflexivity.
  - intros Hfalse.
    rewrite (toolWrapper_run toolName tool
               (mkSchema id json (Some (compiledValidate validator)))
               (compiledValidate validator) args w eq_refl).
    unfold compiledValidate, ensureSyncValidation. rewrite Hfalse. reflexivity.
Qed.

(** X9. Whatever the schema, the tool and the argument, one call of a
    wrapper compiles nothing and leaves the cache as it is, and it records
    at most one call of [execute], made under the wrapper's own tool name
    with the options built from that name. *)
Theorem toolWrapper_effects (toolName : string) (tool : McpToolDefinition)
    (schema : Schema) (args : JsValue) (w w' : World) (r : Outcome JsValue) :
  toolWrapper toolName tool schema args w = (r, w') ->
  schemaValidatorCache w' = schemaValidatorCache w
  /\ compileLog w' = compileLog w
  /\ (executeLog w' = executeLog w
      \/ exists input,
           executeLog w'
           = executeLog w
             ++ [mkCall toolName input (mkOptions ("mcp:" +:+ toolName) [])]).
Proof.
  intros Hrun. unfold toolWrapper, bindM, liftO, throw, invoke in Hrun.
  destruct (validateInput args schema) as [validated | e].
  - destruct (execute tool); injection Hrun as _ <-; simpl; repeat split; eauto.
  - injection Hrun as _ <-. auto.
Qed.

End WrapperCalls.

Lemma buildValidatedSchema_exposes_validate_witness :
  @validateInput Fixture.libraries Fixture.bob Fixture.greetSchema
  = Throw (Error "Input schema does not provide validation.")
  /\ Fixture.greetSchema
     <> mkSchema 1 (Ok Fixture.greetJson)
          (Some (compiledValidate (Fixture.validator Fixture.greetJson))).
Proof.
  exact (proj2 (@buildValidatedSchema_exposes_validate Fixture.libraries
                  (Fixture.handle 1 Fixture.greetJson) Fixture.emptyWorld
                  Fixture.warmWorld
                  (mkSchema 1 (Ok Fixture.greetJson)
                     (Some (compiledValidate (Fixture.validator Fixture.greetJson))))
                  eq_refl)
           Fixture.greetSchema Fixture.bob eq_refl).
Defined.

Lemma toolWrapper_passes_validator_errors_witness :
  @toolWrapper Fixture.libraries "greet" Fixture.greet
    (mkSchema 9 (Ok VNull)
       (Some (compiledValidate
                (fun _ => mkAjvRun (VObject [("then", VFunction 0)]) VNull))))
    Fixture.bob Fixture.emptyWorld
  = (Throw (Error "Async JSON schema validation is not supported."),
     Fixture.emptyWorld).
Proof.
  refine (proj2 (@toolWrapper_passes_validator_errors Fixture.libraries "greet" Fixture.greet
                   (mkSchema 9 (Ok VNull)
                      (Some (compiledValidate
                               (fun _ => mkAjvRun (VObject [("then", VFunction 0)])
                                           VNull))))
                   (compiledValidate
                      (fun _ => mkAjvRun (VObject [("then", VFunction 0)]) VNull))
                   Fixture.bob Fixture.emptyWorld eq_refl)
            (fun _ => mkAjvRun (VObject [("then", VFunction 0)]) VNull) eq_refl _).
  discriminate.
Defined.

Lemma toolWrapper_effects_witness :
  schemaValidatorCache
    (snd (Fixture.greetWrapper Fixture.bob Fixture.warmWorld))
  = schemaValidatorCache Fixture.warmWorld
  /\ compileLog (snd (Fixture.greetWrapper Fixture.bob Fixture.warmWorld))
     = compileLog Fixture.warmWorld.
Proof.
  destruct (@toolWrapper_effects Fixture.libraries "greet" Fixture.greet
              (mkSchema 1 (Ok Fixture.greetJson)
                 (Some (compiledValidate (Fixture.validator Fixture.greetJson))))
              Fixture.bob Fixture.warmWorld _ _ (surjective_pairing _))
    as [Hcache [Hlog _]].
  split; [exact Hcache | exact Hlog].
Defined.

(* ===================================================================== *)
(** ** Further properties: what building a toolset does to the world *)
(* ===================================================================== *)

Section Construction.
Context `{Libraries}.

Lemma getAjvValidator_effects (schema : Schema) (w w' : World)
    (r : Outcome AjvValidator) :
  getAjvValidator schema w = (r, w') ->
  executeLog w' = executeLog w /\ compilesAtMostOnce w r w'.
Proof.
  intros Hrun.
  destruct (schemaValidatorCache w !! schema_id schema) as [cached |] eqn:Hlook.
  - rewrite (getAjvValidator_hit _ _ _ Hlook) in Hrun.
    injection Hrun as _ <-. split; [reflexivity | left; auto].
  - destruct (jsonSchema schema) as [json | e] eqn:Hjson.
    + rewrite (getAjvValidator_miss _ _ _ Hlook Hjson) in Hrun.
      destruct (ajv_compile json) as [validator | e];
        injection Hrun as <- <-; (split; [reflexivity |]);
        right; exists (schema_id schema); simpl; repeat split; eauto.
    + unfold getAjvValidator, bindM, cache_get, liftO in Hrun.
      rewrite Hlook, Hjson in Hrun. injection Hrun as _ <-.
      split; [reflexivity | left; auto].
Qed.

Lemma compilesAtMostOnce_map {A B : Type} (w w' : World) (r : Outcome A)
    (r' : Outcome B) :
  (forall e, r = Throw e -> r' = Throw e) ->
  compilesAtMostOnce w r w' -> compilesAtMostOnce w r' w'.
Proof.
  intros Hthrow [Hquiet | [id [Hmiss [Hlog [[e He] | Hins]]]]].
  - left. exact Hquiet.
  - right. exists id. repeat split; try assumption. left. eauto.
  - right. exists id. repeat split; try assumption. right. exact Hins.
Qed.

Lemma buildValidatedSchema_effects (value : JsValue) (w w' : World)
    (r : Outcome Schema) :
  buildValidatedSchema value w = (r, w') ->
  executeLog w' = executeLog w /\ compilesAtMostOnce w r w'.
Proof.
  intros Hrun. unfold buildValidatedSchema, bindM, liftO in Hrun.
  destruct (asSchema value) as [resolved | e].
  - destruct (validate resolved).
    + injection Hrun as _ <-. split; [reflexivity | left; auto].
    + destruct (getAjvValidator resolved w) as [[validator | e] w1] eqn:Hget;
        destruct (getAjvValidator_effects _ _ _ _ Hget) as [Hexec Hcomp];
        injection Hrun as <- <-; (split; [exact Hexec |]);
        eapply compilesAtMostOnce_map; try exact Hcomp; congruence.
  - injection Hrun as _ <-. split; [reflexivity | left; auto].
Qed.

Lemma createToolWrapper_effects (toolName : string) (tool : McpToolDefinition)
    (w w' : World) (r : Outcome McpToolFunction) :
  createToolWrapper toolName tool w = (r, w') ->
  executeLog w' = executeLog w /\ compilesAtMostOnce w r w'.
Proof.
  intros Hrun. unfold createToolWrapper, bindM, liftO in Hrun.
  destruct (ensureFlexibleSchema (inputSchema tool)) as [flexible | e].
  - destruct (buildValidatedSchema flexible w) as [[schema | e] w1] eqn:Hbuild;
      destruct (buildValidatedSchema_effects _ _ _ _ Hbuild) as [Hexec Hcomp];
      injection Hrun as <- <-; (split; [exact Hexec |]);
      eapply compilesAtMostOnce_map; try exact Hcomp; congruence.
  - injection Hrun as _ <-. split; [reflexivity | left; auto].
Qed.

Lemma createMcpToolFunctions_loop_effects (toolset : McpToolSet)
    (keys : list string) :
  forall (acc : gmap string McpToolFunction) (w w' : World)
         (r : Outcome (gmap string McpToolFunction)),
    createMcpToolFunctions_loop toolset keys acc w = (r, w') ->
    executeLog w' = executeLog w
    /\ exists added,
         compileLog w' = compileLog w ++ added
         /\ List.NoDup added
         /\ (forall id, In id added -> schemaValidatorCache w !! id = None)
         /\ length added <= length keys.
Proof.
  induction keys as [| key rest IH]; intros acc w w' r Hrun; simpl in Hrun.
  - injection Hrun as _ <-. split; [reflexivity |].
    exists []. rewrite app_nil_r. repeat split; simpl; [constructor | tauto | lia].
  - assert (Hskip : forall acc',
               createMcpToolFunctions_loop toolset rest acc' w = (r, w') ->
               executeLog w' = executeLog w
               /\ exists added,
                    compileLog w' = compileLog w ++ added
                    /\ List.NoDup added
                    /\ (forall id, In id added ->
                                   schemaValidatorCache w !! id = None)
                    /\ length added <= length (key :: rest)).
    { intros acc' Hrest.
      destruct (IH _ _ _ _ Hrest) as [Hexec [added [Hlog [Hnd [Hun Hlen]]]]].
      split; [exact Hexec |]. exists added. repeat split; try assumption.
      simpl. lia. }
    destruct (assoc key toolset) as [[tool |] |]; try (by apply (Hskip acc)).
    unfold bindM in Hrun.
    destruct (createToolWrapper key tool w) as [[wrapper | e] w1] eqn:Hwrap;
      destruct (createToolWrapper_effects _ _ _ _ _ Hwrap) as [Hexec1 Hcomp].
    + destruct (IH _ _ _ _ Hrun) as [Hexec [added [Hlog [Hnd [Hun Hlen]]]]].
      split; [congruence |].
      destruct Hcomp as [[Hlog1 Hcache1]
                        | [id [Hmiss [Hlog1 [[e He] | [validator Hins]]]]]].
      * exists added. rewrite Hlog, Hlog1. repeat split; try assumption.
        -- intros id Hin. rewrite <- Hcache1. by apply Hun.
        -- simpl. lia.
      * discriminate.
      * exists (id :: added). rewrite Hlog, Hlog1, <- app_assoc.
        assert (Hfresh : ~ In id added).
        { intros Hin. specialize (Hun id Hin). rewrite Hins in Hun.
          rewrite lookup_insert_eq in Hun. discriminate. }
        repeat split.
        -- by constructor.
        -- intros id' [<- | Hin]; [exact Hmiss |].
           specialize (Hun id' Hin). rewrite Hins in Hun.
           destruct (decide (id = id')) as [<- | Hne]; [contradiction |].
           by rewrite lookup_insert_ne in Hun.
        -- simpl. lia.
    + injection Hrun as _ <-. split; [exact Hexec1 |].
      destruct Hcomp as [[Hlog1 _] | [id [Hmiss [Hlog1 _]]]].
      * exists []. rewrite app_nil_r.
        repeat split; simpl; [exact Hlog1 | constructor | tauto | lia].
      * exists [id]. repeat split; simpl.
        -- exact Hlog1.
        -- repeat constructor. intros [].
        -- intros id' [<- | []]. exact Hmiss.
        -- lia.
Qed.

(** X8. Building the wrappers of a toolset never calls a tool: whether
    the pass ends with a mapping or with an error, the log of [execute]
    calls is what it was. *)
Theorem createMcpToolFunctions_never_executes (toolset : McpToolSet)
    (w w' : World) (r : Outcome (gmap string McpToolFunction)) :
  createMcpToolFunctions toolset w = (r, w') ->
  executeLog w' = executeLog w.
Proof.
  intros Hrun.
  exact (proj1 (createMcpToolFunctions_loop_effects _ _ _ _ _ _ Hrun)).
Qed.


(** X10. One pass over a toolset, successful or not, invokes the compiler
    at most once per schema identity and at most once per key, and only
    for identities that had no cached validator when the pass began. *)
Theorem createMcpToolFunctions_compiles_each_identity_once
    (toolset : McpToolSet) (w w' : World)
    (r : Outcome (gmap string McpToolFunction)) :
  createMcpToolFunctions toolset w = (r, w') ->
  exists added,
    compileLog w' = compileLog w ++ added
    /\ List.NoDup added
    /\ (forall id, In id added -> schemaValidatorCache w !! id = None)
    /\ length added <= length (Object_keys toolset).
Proof.
  intros Hrun.
  exact (proj2 (createMcpToolFunctions_loop_effects _ _ _ _ _ _ Hrun)).
Qed.

Lemma assoc_Some_In {A : Type} (key : string) (x : A) (l : list (string * A)) :
  assoc key l = Some x -> In (key, x) l.
Proof.
  induction l as [| [k y] l IH]; simpl; [discriminate |].
  destruct (String.eqb_spec k key) as [-> | Hne].
  - intros Heq. injection Heq as ->. left. reflexivity.
  - intros Hrest. right. by apply IH.
Qed.

Lemma createMcpToolFunctions_loop_dom (toolset : McpToolSet) (keys : list string) :
  forall (acc fs : gmap string McpToolFunction) (w w' : World),
    createMcpToolFunctions_loop toolset keys acc w = (Ok fs, w') ->
    forall key,
      is_Some (fs !! key)
      <-> is_Some (acc !! key)
          \/ (In key keys /\ exists tool, assoc key toolset = Some (Some tool)).
Proof.
  induction keys as [| k rest IH]; intros acc fs w w' Hrun key; simpl in Hrun.
  - injection Hrun as <- <-. simpl. tauto.
  - destruct (assoc k toolset) as [[tool |] |] eqn:Hentry.
    + unfold bindM in Hrun.
      destruct (createToolWrapper k tool w) as [[wrapper | e] w1]; [| discriminate].
      rewrite (IH _ _ _ _ Hrun key). simpl.
      destruct (decide (k = key)) as [<- | Hne].
      * rewrite lookup_insert_eq. split; [| intros _; left; eauto].
        intros _. right. split; [left; reflexivity | eauto].
      * rewrite lookup_insert_ne by exact Hne. split.
        -- intros [Hacc | [Hin Htool]]; [left; exact Hacc | right; tauto].
        -- intros [Hacc | [[Heq | Hin] Htool]]; [tauto | contradiction | tauto].
    + rewrite (IH _ _ _ _ Hrun key). simpl. split.
      * intros [Hacc | [Hin Htool]]; [left; exact Hacc | right; tauto].
      * intros [Hacc | [[<- | Hin] [tool Htool]]]; [tauto | congruence | eauto].
    + rewrite (IH _ _ _ _ Hrun key). simpl. split.
      * intros [Hacc | [Hin Htool]]; [left; exact Hacc | right; tauto].
      * intros [Hacc | [[<- | Hin] [tool Htool]]]; [tauto | congruence | eauto].
Qed.

(** X11. For a toolset that has no key ["__proto__"] (the one key whose
    assignment on a plain object stores no property): when a pass
    succeeds, the mapping has a wrapper under exactly the keys of the
    defined entries of the toolset: every defined entry got its wrapper
    and no other key is present. *)
Theorem createMcpToolFunctions_keys (toolset : McpToolSet) (w w' : World)
    (fs : gmap string McpToolFunction) (key : string) :
  List.NoDup (Object_keys toolset) ->
  ~ In "__proto__" (Object_keys toolset) ->
  createMcpToolFunctions toolset w = (Ok fs, w') ->
  is_Some (fs !! key) <-> exists tool, In (key, Some tool) toolset.
Proof.
  intros Hnd _ Hrun.
  rewrite (createMcpToolFunctions_loop_dom _ _ _ _ _ _ Hrun key).
  rewrite lookup_empty. split.
  - intros [[x Hx] | [_ [tool Htool]]]; [discriminate |].
    exists tool. by apply assoc_Some_In.
  - intros [tool Hin]. right. split.
    + unfold Object_keys. change key with (fst (key, Some tool)). by apply in_map.
    + exists tool. by apply assoc_In_NoDup.
Qed.

Lemma createToolWrapper_replay (toolName : string) (tool : McpToolDefinition)
    (w w' later : World) (wrapper : McpToolFunction) :
  createToolWrapper toolName tool w = (Ok wrapper, w') ->
  (forall id validator,
      schemaValidatorCache w' !! id = Some validator ->
      schemaValidatorCache later !! id = Some validator) ->
  createToolWrapper toolName tool later = (Ok wrapper, later).
Proof.
  intros Hrun Hincl.
  unfold createToolWrapper, buildValidatedSchema, bindM, liftO, ret in *.
  destruct (ensureFlexibleSchema (inputSchema tool)) as [flexible | e];
    [| discriminate].
  destruct (asSchema flexible) as [resolved | e]; [| discriminate].
  destruct (validate resolved).
  - injection Hrun as <- _. reflexivity.
  - destruct (getAjvValidator resolved w) as [[validator | e] w1] eqn:Hget;
      [| discriminate].
    injection Hrun as <- <-.
    rewrite (getAjvValidator_hit resolved later validator); [reflexivity |].
    apply Hincl. eapply getAjvValidator_cached. exact Hget.
Qed.

Lemma createMcpToolFunctions_loop_replay (toolset : McpToolSet)
    (keys : list string) :
  forall (acc fs : gmap string McpToolFunction) (w w' later : World),
    createMcpToolFunctions_loop toolset keys acc w = (Ok fs, w') ->
    (forall id validator,
        schemaValidatorCache w' !! id = Some validator ->
        schemaValidatorCache later !! id = Some validator) ->
    createMcpToolFunctions_loop toolset keys acc later = (Ok fs, later).
Proof.
  induction keys as [| key rest IH]; intros acc fs w w' later Hrun Hincl;
    simpl in *.
  - injection Hrun as <- _. reflexivity.
  - destruct (assoc key toolset) as [[tool |] |]; try (eapply IH; eauto; fail).
    unfold bindM in *.
    destruct (createToolWrapper key tool w) as [[wrapper | e] w1] eqn:Hwrap;
      [| discriminate].
    rewrite (createToolWrapper_replay _ _ _ _ later _ Hwrap).
    + eapply IH; eauto.
    + intros id validator Hc. apply Hincl.
      exact (proj1 (createMcpToolFunctions_loop_keeps _ _ _ _ _ _ _ _ Hc Hrun)).
Qed.

(** X14. Building is repeatable for schema objects.  For a toolset none
    of whose defined entries has a callable input schema (a callable one
    is called anew by every resolution and may give a fresh handle): after
    a successful pass, building the same toolset again, at once or after
    any number of further completed builds and wrapper calls, gives
    wrappers over the same resolved schemas and validators, invokes the
    compiler for nothing and leaves the world as it finds it. *)
Theorem createMcpToolFunctions_again (toolset : McpToolSet) (w w' later : World)
    (fs : gmap string McpToolFunction) :
  Forall (fun entry => typeof (inputSchema (snd entry)) <> "function")
    (definedEntries toolset) ->
  createMcpToolFunctions toolset w = (Ok fs, w') ->
  evolves w' later ->
  createMcpToolFunctions toolset later = (Ok fs, later).
Proof.
  intros _ Hrun Hev.
  eapply createMcpToolFunctions_loop_replay; [exact Hrun |].
  intros id validator Hc. exact (proj1 (evolves_keeps _ _ _ _ Hev Hc)).
Qed.

End Construction.

Lemma createMcpToolFunctions_never_executes_witness :
  executeLog
    (snd (@createMcpToolFunctions Fixture.libraries
            [("greet", Some Fixture.greet); ("bad", Some Fixture.uncompilable)]
            Fixture.emptyWorld))
  = [].
Proof.
  exact (@createMcpToolFunctions_never_executes Fixture.libraries
           [("greet", Some Fixture.greet); ("bad", Some Fixture.uncompilable)]
           Fixture.emptyWorld _ _ (surjective_pairing _)).
Defined.

(** Two tools over one schema handle: the handle is compiled once. *)
Lemma createMcpToolFunctions_compiles_each_identity_once_witness :
  exists added,
    compileLog
      (snd (@createMcpToolFunctions Fixture.libraries
              [("greet", Some Fixture.greet); ("hello", Some Fixture.greet)]
              Fixture.emptyWorld))
    = [] ++ added
    /\ List.NoDup added.
Proof.
  destruct (@createMcpToolFunctions_compiles_each_identity_once Fixture.libraries
              [("greet", Some Fixture.greet); ("hello", Some Fixture.greet)]
              Fixture.emptyWorld _ _ (surjective_pairing _))
    as [added [Hlog [Hnd _]]].
  exists added. split; [exact Hlog | exact Hnd].
Defined.

Example shared_handle_compiled_once :
  compileLog
    (snd (@createMcpToolFunctions Fixture.libraries
            [("greet", Some Fixture.greet); ("hello", Some Fixture.greet)]
            Fixture.emptyWorld))
  = [1%nat].
Proof. reflexivity. Qed.

Lemma createMcpToolFunctions_keys_witness :
  is_Some (Fixture.greetFunctions !! "greet")
  <-> exists tool, In ("greet", Some tool) Fixture.greetToolset.
Proof.
  refine (@createMcpToolFunctions_keys Fixture.libraries Fixture.greetToolset
            Fixture.emptyWorld Fixture.warmWorld Fixture.greetFunctions "greet"
            _ _ eq_refl).
  - repeat constructor. intros [].
  - simpl. intros [Heq | []]. discriminate.
Defined.

Lemma createMcpToolFunctions_again_witness :
  @createMcpToolFunctions Fixture.libraries Fixture.greetToolset
    (snd (Fixture.greetWrapper Fixture.bob Fixture.warmWorld))
  = (Ok Fixture.greetFunctions,
     snd (Fixture.greetWrapper Fixture.bob Fixture.warmWorld)).
Proof.
  refine (@createMcpToolFunctions_again Fixture.libraries Fixture.greetToolset
            Fixture.emptyWorld Fixture.warmWorld _ Fixture.greetFunctions
            _ eq_refl _).
  { constructor; [discriminate | constructor]. }
  eapply (@evolves_call Fixture.libraries);
    [apply (@evolves_refl Fixture.libraries) |].
  exact (surjective_pairing
           (@toolWrapper Fixture.libraries "greet" Fixture.greet
              (mkSchema 1 (Ok Fixture.greetJson)
                 (Some (compiledValidate (Fixture.validator Fixture.greetJson))))
              Fixture.bob Fixture.warmWorld)).
Defined.

(* ===================================================================== *)
(** ** Further properties: listing *)
(* ===================================================================== *)

Section Listing.
Context `{Libraries}.

Lemma listMcpToolsFromToolSet_loop_agree (ts1 ts2 : McpToolSet) (keys : list string) :
  (forall key, In key keys -> assoc key ts1 = assoc key ts2) ->
  forall acc,
    listMcpToolsFromToolSet_loop ts1 keys acc
    = listMcpToolsFromToolSet_loop ts2 keys acc.
Proof.
  induction keys as [| key rest IH]; intros Hagree acc; simpl; [reflexivity |].
  rewrite <- (Hagree key) by (left; reflexivity).
  assert (Hrest : forall k, In k rest -> assoc k ts1 = assoc k ts2)
    by (intros k Hk; apply Hagree; right; exact Hk).
  destruct (assoc key ts1) as [[tool |] |]; try (by apply IH).
  destruct (toolInfo key tool) as [info | e]; simpl; [by apply IH | reflexivity].
Qed.

Lemma listMcpToolsFromToolSet_loop_app (toolset : McpToolSet) (ks1 ks2 : list string) :
  forall acc,
    listMcpToolsFromToolSet_loop toolset (ks1 ++ ks2) acc
    = bindO (listMcpToolsFromToolSet_loop toolset ks1 acc)
        (listMcpToolsFromToolSet_loop toolset ks2).
Proof.
  induction ks1 as [| key rest IH]; intros acc; simpl; [reflexivity |].
  destruct (assoc key toolset) as [[tool |] |]; try apply IH.
  destruct (toolInfo key tool) as [info | e]; simpl; [apply IH | reflexivity].
Qed.

Lemma toolInfo_Ok (toolName : string) (tool : McpToolDefinition)
    (info : McpToolInfo) :
  toolInfo toolName tool = Ok info -> listedAs (toolName, tool) info.
Proof.
  unfold toolInfo, listedAs, ensureFlexibleSchema. simpl.
  destruct (isFlexibleSchema (inputSchema tool)) eqn:Hshape; [| discriminate].
  simpl. destruct (asSchema (inputSchema tool)) as [schema | e]; [| discriminate].
  simpl. destruct (jsonSchema schema) as [json | e] eqn:Hjson; [| discriminate].
  simpl. intros Heq. injection Heq as <-. simpl.
  split; [by apply isFlexibleSchema_supportedShape |].
  exists schema. auto.
Qed.

Lemma listedAs_resolvable (entry : string * McpToolDefinition) (info : McpToolInfo) :
  listedAs entry info -> resolvable (snd entry).
Proof.
  intros [Hshape [schema [Hres [Hjson _]]]]. split; [exact Hshape | eauto].
Qed.

Lemma listedAs_all_resolvable (entries : list (string * McpToolDefinition))
    (infos : list McpToolInfo) :
  Forall2 listedAs entries infos ->
  Forall (fun entry => resolvable (snd entry)) entries.
Proof.
  induction 1 as [| entry info entries infos Hlisted _ IH]; constructor;
    [eapply listedAs_resolvable; eauto | exact IH].
Qed.

Lemma listMcpToolsFromToolSet_loop_sound (toolset entries : McpToolSet) :
  (forall key x, In (key, x) entries -> assoc key toolset = Some x) ->
  forall acc out,
    listMcpToolsFromToolSet_loop toolset (map fst entries) acc = Ok out ->
    exists infos,
      out = acc ++ infos /\ Forall2 listedAs (definedEntries entries) infos.
Proof.
  induction entries as [| [k [tool |]] rest IH]; intros Hlook acc out Hrun;
    simpl in Hrun.
  - injection Hrun as <-. exists []. rewrite app_nil_r. split; [reflexivity | constructor].
  - rewrite (Hlook k (Some tool)) in Hrun by (left; reflexivity).
    destruct (toolInfo k tool) as [info | e] eqn:Hinfo; [| discriminate].
    simpl in Hrun.
    destruct (IH (fun key x Hin => Hlook key x (or_intror Hin)) _ _ Hrun)
      as [infos [-> Hall]].
    exists (info :: infos). rewrite <- app_assoc. split; [reflexivity |].
    simpl. constructor; [by apply toolInfo_Ok | exact Hall].
  - rewrite (Hlook k None) in Hrun by (left; reflexivity).
    apply (IH (fun key x Hin => Hlook key x (or_intror Hin)) _ _ Hrun).
Qed.

(** X12. A listing succeeds exactly when every defined entry of the
    toolset has a supported schema whose JSON representation resolves, and
    each record of a successful listing carries, as its input schema, the
    JSON representation of its entry's resolved schema. *)
Theorem listMcpToolsFromToolSet_succeeds_iff (toolset : McpToolSet) :
  List.NoDup (Object_keys toolset) ->
  ((exists infos, listMcpToolsFromToolSet toolset = Ok infos)
   <-> Forall (fun entry => resolvable (snd entry)) (definedEntries toolset))
  /\ (forall infos,
        listMcpToolsFromToolSet toolset = Ok infos ->
        Forall2 listedAs (definedEntries toolset) infos).
Proof.
  intros Hnd.
  assert (Hlook : forall key x, In (key, x) toolset -> assoc key toolset = Some x)
    by (intros key x; by apply assoc_In_NoDup).
  assert (Hsound : forall infos,
             listMcpToolsFromToolSet toolset = Ok infos ->
             Forall2 listedAs (definedEntries toolset) infos).
  { intros infos Hrun.
    destruct (listMcpToolsFromToolSet_loop_sound toolset toolset Hlook [] infos Hrun)
      as [infos' [-> Hall]]. exact Hall. }
  split; [| exact Hsound]. split.
  - intros [infos Hrun]. eapply listedAs_all_resolvable. eauto.
  - intros Hres.
    destruct (listMcpToolsFromToolSet_loop_defined toolset toolset Hlook Hres [])
      as [infos [Hrun _]].
    exists infos. exact Hrun.
Qed.

(** X13. A listing stops at the first defined entry it cannot describe
    and raises that entry's error, whatever entries follow: the
    unsupported-schema error, else the error of schema resolution, else
    the error of the JSON representation. *)
Theorem listMcpToolsFromToolSet_first_error (pre post : McpToolSet)
    (toolName : string) (tool : McpToolDefinition) (infos : list McpToolInfo) :
  List.NoDup (Object_keys (pre ++ (toolName, Some tool) :: post)) ->
  listMcpToolsFromToolSet pre = Ok infos ->
  (~ supportedShape (inputSchema tool) ->
   listMcpToolsFromToolSet (pre ++ (toolName, Some tool) :: post)
   = Throw (Error "Tool input schema is not a supported schema."))
  /\ (forall e,
        supportedShape (inputSchema tool) ->
        asSchema (inputSchema tool) = Throw e ->
        listMcpToolsFromToolSet (pre ++ (toolName, Some tool) :: post) = Throw e)
  /\ (forall schema e,
        supportedShape (inputSchema tool) ->
        asSchema (inputSchema tool) = Ok schema ->
        jsonSchema schema = Throw e ->
        listMcpToolsFromToolSet (pre ++ (toolName, Some tool) :: post) = Throw e).
Proof.
  intros Hnd Hpre.
  assert (Hfail : forall e,
             toolInfo toolName tool = Throw e ->
             listMcpToolsFromToolSet (pre ++ (toolName, Some tool) :: post)
             = Throw e).
  { intros e Hinfo. unfold listMcpToolsFromToolSet, Object_keys in *.
    rewrite map_app in *. simpl map in *.
    rewrite listMcpToolsFromToolSet_loop_app.
    rewrite (listMcpToolsFromToolSet_loop_agree
               (pre ++ (toolName, Some tool) :: post) pre)
      by (intros key Hkey; by apply assoc_app_l).
    rewrite Hpre. simpl.
    apply List.NoDup_remove_2 in Hnd.
    rewrite assoc_app_r by (intros Hin; apply Hnd; apply in_or_app; tauto).
    simpl. rewrite String.eqb_refl, Hinfo. reflexivity. }
  split; [| split].
  - intros Hshape. apply Hfail. unfold toolInfo.
    rewrite (ensureFlexibleSchema_unsupported _ Hshape). reflexivity.
  - intros e Hshape Hres. apply Hfail. unfold toolInfo.
    rewrite (ensureFlexibleSchema_supported _ Hshape). simpl.
    rewrite Hres. reflexivity.
  - intros schema e Hshape Hres Hjson. apply Hfail. unfold toolInfo.
    rewrite (ensureFlexibleSchema_supported _ Hshape). simpl.
    rewrite Hres. simpl. rewrite Hjson. reflexivity.
Qed.

End Listing.

Lemma listMcpToolsFromToolSet_succeeds_iff_witness :
  (exists infos,
      @listMcpToolsFromToolSet Fixture.libraries
        [("calc", Some Fixture.calc); ("gone", None)] = Ok infos)
  <-> Forall (fun entry => @resolvable Fixture.libraries (snd entry))
        [("calc", Fixture.calc)].
Proof.
  refine (proj1 (@listMcpToolsFromToolSet_succeeds_iff Fixture.libraries
                   [("calc", Some Fixture.calc); ("gone", None)] _)).
  repeat constructor; simpl; intuition discriminate.
Defined.

Lemma listMcpToolsFromToolSet_first_error_witness :
  @listMcpToolsFromToolSet Fixture.libraries
    ([("calc", Some Fixture.calc)]
     ++ ("raw", Some Fixture.unsupported) :: [("greet", Some Fixture.greet)])
  = Throw (Error "Tool input schema is not a supported schema.").
Proof.
  refine (proj1 (@listMcpToolsFromToolSet_first_error Fixture.libraries
                   [("calc", Some Fixture.calc)] [("greet", Some Fixture.greet)]
                   "raw" Fixture.unsupported _ _ eq_refl) _).
  - repeat constructor; simpl; intuition discriminate.
  - intros Hs. apply isFlexibleSchema_supportedShape in Hs. discriminate.
Defined.

(* ===================================================================== *)
(** ** Further properties: the entry points *)
(* ===================================================================== *)

Section EntryPoints.
Context `{Libraries} `{McpClientLibrary}.

(** X15. The two entry points add nothing to the toolset functions.  When
    connecting or enumerating rejects, both pass that error on and
    [getMcpToolsAsFunctions] leaves the world as it is; otherwise they are
    [createMcpToolFunctions] and [listMcpToolsFromToolSet] on the
    enumerated toolset.  In every case obtaining the functions calls no
    tool, and the functions obtained are wrappers of defined entries of
    the enumerated toolset. *)
Theorem entry_points_delegate (config : JsValue) (w : World) :
  (forall e,
      createMCPClient config = Throw e
      \/ (exists client,
             createMCPClient config = Ok client /\ client_tools client = Throw e) ->
      getMcpToolsAsFunctions config w = (Throw e, w)
      /\ listMcpTools config = Throw e)
  /\ (forall client toolset,
        createMCPClient config = Ok client ->
        client_tools client = Ok toolset ->
        getMcpToolsAsFunctions config w = createMcpToolFunctions toolset w
        /\ listMcpTools config = listMcpToolsFromToolSet toolset)
  /\ (forall r w',
        getMcpToolsAsFunctions config w = (r, w') ->
        executeLog w' = executeLog w
        /\ forall fs, r = Ok fs ->
             exists client toolset,
               createMCPClient config = Ok client
               /\ client_tools client = Ok toolset
               /\ wrappersBuilt toolset fs w').
Proof.
  unfold getMcpToolsAsFunctions, listMcpTools, bindM, liftO.
  split; [| split].
  - intros e [Hconn | [client [Hconn Htools]]]; rewrite Hconn; simpl;
      [| rewrite Htools]; split; reflexivity.
  - intros client toolset Hconn Htools. rewrite Hconn. simpl. rewrite Htools.
    split; reflexivity.
  - intros r w' Hrun.
    destruct (createMCPClient config) as [client | e] eqn:Hconn;
      [| injection Hrun as <- <-; split; [reflexivity | discriminate]].
    simpl in Hrun.
    destruct (client_tools client) as [toolset | e] eqn:Htools;
      [| injection Hrun as <- <-; split; [reflexivity | discriminate]].
    split.
    + exact (proj1 (createMcpToolFunctions_loop_effects _ _ _ _ _ _ Hrun)).
    + intros fs ->. exists client, toolset.
      split; [reflexivity |]. split; [exact Htools |].
      by apply createMcpToolFunctions_built with (w := w).
Qed.

End EntryPoints.

Example connect_and_list :
  @listMcpTools Fixture.libraries ClientFixture.client ClientFixture.config
  = @listMcpToolsFromToolSet Fixture.libraries
      [("greet", Some Fixture.greet); ("calc", Some Fixture.calc)].
Proof. reflexivity. Qed.

Example connect_fails :
  @getMcpToolsAsFunctions Fixture.libraries ClientFixture.client
    ClientFixture.badConfig Fixture.emptyWorld
  = (Throw (Error "Invalid MCP client configuration"), Fixture.emptyWorld).
Proof. reflexivity. Qed.
